(** * pytest-sentry: a shallow embedding of [pytest_sentry.py]

    The plugin wraps pytest's per-item hooks so that each phase runs with the
    item's Sentry hub active, records failures of the "call" phase on the
    item, and rewrites the [in_app] flag of the stack frames of outgoing
    events.  This file embeds the module function by function and proves
    properties of the embedding.

    Python objects are values of [pyval]; objects with an identity that the
    code mutates or compares (hubs, items) live in an explicit [world].
    The calls made to [sentry_sdk] are recorded, in order, in a trace.
    Whether [sentry_sdk.Client.__init__] accepts the arguments the plugin
    hands it is the SDK's business: the world carries that constructor as
    a function, and the statements hold for every such function. *)

From Stdlib Require Import String Ascii ZArith QArith.
From stdpp Require Import base option list gmap strings.

Set Warnings "-register-all".

Local Open Scope Z_scope.
Local Open Scope stdpp_scope.

(** ** Python values *)

(** The values that flow through the plugin.  A dict is an association list
    in insertion order, as Python keeps it.  [VClient] is an instance of the
    plugin's own [Client] class and [VSdkClient] an instance of another
    [sentry_sdk.Client] class; both carry the arguments their constructor
    handed to [sentry_sdk.Client.__init__].  [VHub] is a reference into the
    hub heap.  [VCallable name ret] is a callable taking no argument that
    returns [ret]; [VObject t] is an object of any other type, [t] being
    [repr(type(v))]. *)
Inductive pyval :=
| VNone
| VBool (b : bool)
| VInt (n : Z)
| VFloat (q : Q)
| VStr (s : string)
| VList (l : list pyval)
| VDict (d : list (string * pyval))
| VIntegration (always_report : pyval)
| VClient (args : list pyval) (options : list (string * pyval))
| VSdkClient (args : list pyval) (options : list (string * pyval))
| VHub (h : nat)
| VCallable (name : string) (ret : pyval)
| VReport (outcome : string)
| VObject (tyrepr : string).

Abbreviation dict := (list (string * pyval)).

(** [repr(type(v))] *)
Definition type_repr (v : pyval) : string :=
  match v with
  | VNone => "<class 'NoneType'>"
  | VBool _ => "<class 'bool'>"
  | VInt _ => "<class 'int'>"
  | VFloat _ => "<class 'float'>"
  | VStr _ => "<class 'str'>"
  | VList _ => "<class 'list'>"
  | VDict _ => "<class 'dict'>"
  | VIntegration _ => "<class 'pytest_sentry.PytestIntegration'>"
  | VClient _ _ => "<class 'pytest_sentry.Client'>"
  | VSdkClient _ _ => "<class 'sentry_sdk.client.Client'>"
  | VHub _ => "<class 'sentry_sdk.hub.Hub'>"
  | VCallable _ _ => "<class 'function'>"
  | VReport _ => "<class '_pytest.reports.TestReport'>"
  | VObject t => t
  end.

(** Truth value of an object in a condition. *)
Definition truthy (v : pyval) : bool :=
  match v with
  | VNone => false
  | VBool b => b
  | VInt n => negb (n =? 0)
  | VFloat q => negb (Qeq_bool q 0)
  | VStr s => negb (String.eqb s "")
  | VList l => match l with [] => false | _ => true end
  | VDict d => match d with [] => false | _ => true end
  | _ => true
  end.

(** ** Exceptions and results *)

(** An exception as [sys.exc_info()] shows it: type, value and traceback. *)
Record exc_info := ExcInfo {
  exc_type : string;
  exc_value : string;
  exc_tb : nat
}.

Global Instance exc_info_eq_dec : EqDecision exc_info.
Proof. solve_decision. Defined.

Definition new_exception (ty msg : string) : exc_info :=
  {| exc_type := ty; exc_value := msg; exc_tb := 0%nat |}.

Inductive result (A : Type) :=
| Ok (a : A)
| Raise (e : exc_info).
Arguments Ok {A} a.
Arguments Raise {A} e.

Global Instance result_ret : MRet result := @Ok.

Global Instance result_bind : MBind result := fun A B f r =>
  match r with
  | Ok a => f a
  | Raise e => Raise e
  end.

(** [for x in xs: x = f(x)] with the first exception ending the loop. *)
Fixpoint rmap {A B} (f : A -> result B) (xs : list A) : result (list B) :=
  match xs with
  | [] => Ok []
  | x :: xs' =>
      y ← f x;
      ys ← rmap f xs';
      Ok (y :: ys)
  end.

(** ** Strings *)

Definition lower_ascii (c : ascii) : ascii :=
  let n := nat_of_ascii c in
  if ((65 <=? n)%nat && (n <=? 90)%nat)%bool
  then ascii_of_nat (n + 32) else c.

(** [str.lower] on the ASCII range. *)
Fixpoint lower (s : string) : string :=
  match s with
  | EmptyString => EmptyString
  | String c s' => String (lower_ascii c) (lower s')
  end.

(** [s.startswith(p)] *)
Definition startswith (s p : string) : bool := String.prefix p s.

(** [s.startswith((p1, p2, ...))] *)
Definition startswith_any (s : string) (ps : list string) : bool :=
  existsb (startswith s) ps.

(** [s.endswith(c)] for a one-character suffix. *)
Fixpoint endswith_char (s : string) (c : ascii) : bool :=
  match s with
  | EmptyString => false
  | String a EmptyString => Ascii.eqb a c
  | String _ s' => endswith_char s' c
  end.

(** [s.rfind(c)] for a one-character needle, scanning from index [i]: the
    highest index of [c], or [-1]. *)
Fixpoint rfind_from (s : string) (c : ascii) (i : Z) : Z :=
  match s with
  | EmptyString => -1
  | String a s' =>
      let r := rfind_from s' c (i + 1) in
      if r =? -1 then (if Ascii.eqb a c then i else -1) else r
  end.

Definition rfind (s : string) (c : ascii) : Z := rfind_from s c 0.

(** [s[:k]] for [0 <= k]. *)
Definition slice_to (s : string) (k : Z) : string :=
  String.substring 0 (Z.to_nat k) s.

(** ** Dicts *)

(** [d.get(k)]; [None] stands for a missing key. *)
Fixpoint dict_get (k : string) (d : dict) : option pyval :=
  match d with
  | [] => None
  | (k', v) :: d' => if String.eqb k k' then Some v else dict_get k d'
  end.

(** [k in d] *)
Definition dict_has (k : string) (d : dict) : bool :=
  match dict_get k d with Some _ => true | None => false end.

(** [d[k] = v]: an existing key keeps its place, a new key goes last. *)
Fixpoint dict_set (k : string) (v : pyval) (d : dict) : dict :=
  match d with
  | [] => [(k, v)]
  | (k', v') :: d' =>
      if String.eqb k k' then (k', v) :: d' else (k', v') :: dict_set k v d'
  end.

(** [d.setdefault(k, v)]: the value now under [k], and the dict. *)
Definition dict_setdefault (k : string) (v : pyval) (d : dict)
  : pyval * dict :=
  match dict_get k d with
  | Some v' => (v', d)
  | None => (v, dict_set k v d)
  end.

(** [os.environ] *)
Abbreviation environ := (gmap string string).

(** [os.environ.get(k, None)] *)
Definition environ_get (env : environ) (k : string) : pyval :=
  match env !! k with
  | Some s => VStr s
  | None => VNone
  end.

(** [os.environ.get(k, dflt)] with a string default. *)
Definition environ_get_str (env : environ) (k dflt : string) : string :=
  match env !! k with
  | Some s => s
  | None => dflt
  end.

(** ** [PytestIntegration] *)

Definition truthy_forms : list string := ["1"; "true"; "yes"].

(** [x in ("1", "true", "yes")] *)
Definition in_truthy_forms (s : string) : bool :=
  existsb (String.eqb s) truthy_forms.

(** [PytestIntegration.__init__]: the instance, with its [always_report]. *)
Definition PytestIntegration (env : environ) (always_report : pyval) : pyval :=
  let always_report :=
    match always_report with
    | VNone =>
        VBool (in_truthy_forms
                 (lower (environ_get_str env "PYTEST_SENTRY_ALWAYS_REPORT" "")))
    | _ => always_report
    end in
  VIntegration always_report.

Definition always_report_of (i : pyval) : option pyval :=
  match i with
  | VIntegration a => Some a
  | _ => None
  end.

(** ** [Client] *)

Definition attribute_error (v : pyval) (attr : string) : exc_info :=
  new_exception "AttributeError"
    (type_repr v +:+ " object has no attribute '" +:+ attr +:+ "'").

(** [sentry_sdk.Client.__init__] as the plugin meets it: the exception it
    raises on the positional and keyword arguments it is given (a string
    that is no DSN, an option it does not know, an entry of [integrations]
    that is no integration, ...), [None] when it builds the client.  The SDK
    is no part of the plugin: a world carries the one it runs with. *)
Definition sdk_constructor : Type := list pyval -> dict -> option exc_info.

(** Lines 32 to 39 of [Client.__init__]: the keyword arguments get their
    defaults and the integration is appended.  A caller-supplied list or
    dict is updated in place by the code; here the update is the value
    passed on, the caller's own object is not followed. *)
Definition Client_kwargs (env : environ) (kwargs : dict) : result dict :=
  let kwargs :=
    (dict_setdefault "dsn" (environ_get env "PYTEST_SENTRY_DSN") kwargs).2 in
  let kwargs := (dict_setdefault "traces_sample_rate" (VFloat 1) kwargs).2 in
  let '(experiments, kwargs) :=
    dict_setdefault "_experiments" (VDict []) kwargs in
  kwargs ←
    match experiments with
    | VDict e =>
        Ok (dict_set "_experiments"
              (VDict (dict_setdefault "auto_enabling_integrations"
                        (VBool true) e).2) kwargs)
    | v => Raise (attribute_error v "setdefault")
    end;
  let kwargs := (dict_setdefault "environment" (VStr "test") kwargs).2 in
  let '(integrations, kwargs) :=
    dict_setdefault "integrations" (VList []) kwargs in
  match integrations with
  | VList l =>
      Ok (dict_set "integrations"
            (VList (l ++ [PytestIntegration env VNone])) kwargs)
  | v => Raise (attribute_error v "append")
  end.

(** [Client.__init__]: the completed keyword arguments go, with the
    positional ones, to [sentry_sdk.Client.__init__] (line 41), whose
    exception is not caught; the client records what it was built from. *)
Definition Client (sdk : sdk_constructor) (env : environ) (args : list pyval)
    (kwargs : dict) : result pyval :=
  kwargs ← Client_kwargs env kwargs;
  match sdk args kwargs with
  | Some e => Raise e
  | None => Ok (VClient args kwargs)
  end.

(** ** The world: hubs, items and the trace of SDK calls *)

(** A [sentry_sdk.Hub] object: its client ([VNone] when it has none) and the
    stack [_old_hubs] of the hubs it replaced when it was entered. *)
Record hub_obj := HubObj {
  hub_client : pyval;
  hub_old_hubs : list nat
}.

(** The calls the plugin makes to [sentry_sdk]. *)
Inductive sdk_call :=
| PushScope
| PopScope
| AddEventProcessor (f : string)
| SetTag (key value : string)
| StartTransaction (op name : string)
| FinishTransaction
| CaptureException (e : exc_info).

Global Instance sdk_call_eq_dec : EqDecision sdk_call.
Proof. solve_decision. Defined.

(** What the trace records: a hub made current, a hub left, and a call with
    the hub it was made on. *)
Inductive trace_entry :=
| Entered (h : nat)
| Exited (h : nat)
| Called (h : nat) (c : sdk_call).

Global Instance trace_entry_eq_dec : EqDecision trace_entry.
Proof. solve_decision. Defined.

(** [w_sdk] is the SDK's client constructor and [w_env] the process
    environment; [w_hubs] is the heap of hub objects, a hub's index being its identity;
    [w_current] is [Hub.current]; [w_exc_chain] holds the attribute
    [pytest_sentry_exc_chain] of the items that have it, by item identity;
    [w_invoked] lists the marker callables invoked so far; [w_trace] is
    the trace so far. *)
Record world := World {
  w_sdk : sdk_constructor;
  w_env : environ;
  w_hubs : list hub_obj;
  w_current : nat;
  w_exc_chain : gmap nat (list exc_info);
  w_invoked : list string;
  w_trace : list trace_entry
}.

Definition set_hubs (f : list hub_obj -> list hub_obj) (w : world) : world :=
  World (w_sdk w) (w_env w) (f (w_hubs w)) (w_current w) (w_exc_chain w)
    (w_invoked w) (w_trace w).

Definition set_current (h : nat) (w : world) : world :=
  World (w_sdk w) (w_env w) (w_hubs w) h (w_exc_chain w) (w_invoked w)
    (w_trace w).

Definition set_exc_chain (i : nat) (c : list exc_info) (w : world) : world :=
  World (w_sdk w) (w_env w) (w_hubs w) (w_current w)
    (<[i := c]> (w_exc_chain w)) (w_invoked w) (w_trace w).

Definition invoke (name : string) (w : world) : world :=
  World (w_sdk w) (w_env w) (w_hubs w) (w_current w) (w_exc_chain w)
    (w_invoked w ++ [name]) (w_trace w).

Definition record (t : trace_entry) (w : world) : world :=
  World (w_sdk w) (w_env w) (w_hubs w) (w_current w) (w_exc_chain w)
    (w_invoked w) (w_trace w ++ [t]).

(** A call made through the module-level API goes to [Hub.current]. *)
Definition emit (c : sdk_call) (w : world) : world :=
  record (Called (w_current w) c) w.

(** [Hub(client)]: a new hub object, with an empty [_old_hubs]. *)
Definition Hub (client : pyval) (w : world) : nat * world :=
  (length (w_hubs w), set_hubs (fun hs => hs ++ [HubObj client []]) w).

Definition push_old (old : nat) (o : hub_obj) : hub_obj :=
  HubObj (hub_client o) (old :: hub_old_hubs o).

(** [Hub.__enter__]: remember [Hub.current], become the current hub. *)
Definition hub_enter (h : nat) (w : world) : world :=
  set_current h (set_hubs (alter (push_old (w_current w)) h)
                   (record (Entered h) w)).

Definition pop_error : exc_info :=
  new_exception "IndexError" "pop from empty list".

(** [Hub.__exit__]: pop the remembered hub and make it current again. *)
Definition hub_exit (h : nat) (w : world) : result world :=
  match w_hubs w !! h with
  | Some (HubObj c (old :: rest)) =>
      Ok (set_current old (set_hubs (<[h := HubObj c rest]>)
                             (record (Exited h) w)))
  | _ => Raise pop_error
  end.

Definition is_integration (v : pyval) : bool :=
  match v with VIntegration _ => true | _ => false end.

(** [client.integrations.get("pytest")]: the SDK keys the configured
    integrations by identifier, a later one replacing an earlier one. *)
Definition client_integration (client : pyval) : option pyval :=
  match client with
  | VClient _ options | VSdkClient _ options =>
      match dict_get "integrations" options with
      | Some (VList l) => last (filter (fun v => is_integration v = true) l)
      | _ => None
      end
  | _ => None
  end.

(** [hub.get_integration(PytestIntegration)] *)
Definition get_integration (w : world) (h : nat) : option pyval :=
  match w_hubs w !! h with
  | Some o => client_integration (hub_client o)
  | None => None
  end.

(** ** Items and markers *)

Record marker := Marker {
  m_args : list pyval;
  m_kwargs : dict
}.

(** A test item: its identity, its [nodeid] and what
    [get_closest_marker("sentry_client")] returns for it. *)
Record item := Item {
  item_id : nat;
  nodeid : string;
  sentry_client_marker : option marker
}.

(** The hub of [sentry_sdk] itself and the plugin's [DEFAULT_HUB], in the
    order the two modules create them. *)
Definition GLOBAL_HUB : nat := 0.
Definition DEFAULT_HUB : nat := 1.

(** The world once [sentry_sdk] and then the plugin are imported:
    [DEFAULT_HUB = Hub(Client())]. *)
Definition initial_world_with (sdk : sdk_constructor) (env : environ)
  : world :=
  let client :=
    match Client sdk env [] [] with Ok c => c | Raise _ => VNone end in
  World sdk env [HubObj VNone []; HubObj client []] GLOBAL_HUB ∅ [] [].

(** An SDK that finds no fault with the arguments it is given, and the
    world after the imports with it. *)
Definition accepting_sdk : sdk_constructor := fun _ _ => None.

Definition initial_world (env : environ) : world :=
  initial_world_with accepting_sdk env.

(** ** [_resolve_hub_marker_value] *)

Definition index_error : exc_info :=
  new_exception "IndexError" "tuple index out of range".

Definition marker_error (v : pyval) : exc_info :=
  new_exception "RuntimeError"
    ("The `sentry_client` value must be a client, hub or string, not "
       +:+ type_repr v).

Definition _resolve_hub_marker_value (marker_value : option marker)
    (w : world) : result nat * world :=
  match
    match marker_value with
    | None => Ok (VHub DEFAULT_HUB)
    | Some m =>
        match m_args m with
        | v :: _ => Ok v
        | [] => Raise index_error
        end
    end
  with
  | Raise e => (Raise e, w)
  | Ok marker_value =>
      let '(marker_value, w) :=
        match marker_value with
        | VCallable name ret => (ret, invoke name w)
        | _ => (marker_value, w)
        end in
      match marker_value with
      | VNone => let '(h, w) := Hub VNone w in (Ok h, w)
      | VStr s =>
          match Client (w_sdk w) (w_env w) [VStr s] [] with
          | Ok c => let '(h, w) := Hub c w in (Ok h, w)
          | Raise e => (Raise e, w)
          end
      | VDict d =>
          match Client (w_sdk w) (w_env w) [] d with
          | Ok c => let '(h, w) := Hub c w in (Ok h, w)
          | Raise e => (Raise e, w)
          end
      | VClient _ _ => let '(h, w) := Hub marker_value w in (Ok h, w)
      | VHub h => (Ok h, w)
      | v => (Raise (marker_error v), w)
      end
  end.

(** The fixture [sentry_test_hub]; [request.node] is the item. *)
Definition sentry_test_hub (request_node : item) (w : world)
  : result nat * world :=
  _resolve_hub_marker_value (sentry_client_marker request_node) w.

(** ** Generators *)

(** What resuming a generator gives: it yields and is suspended in a new
    state, it returns ([StopIteration]), or it raises. *)
Inductive gstep (S : Type) :=
| GYield (s : S)
| GReturn
| GRaise (e : exc_info).
Arguments GYield {S} s.
Arguments GReturn {S}.
Arguments GRaise {S} e.

(** A generator with suspension states [S]: [gen sent s w] resumes it from
    state [s], [sent] being the value passed to [send] ([None] for [next]). *)
Definition generator (S : Type) : Type :=
  option (result pyval) -> S -> world -> gstep S * world.

(** The states of the plugin's hook bodies: not started, and suspended at
    their one [yield]. *)
Inductive gstate := GStart | GSuspended.

(** ** The wrapped hooks *)

Record callinfo := CallInfo {
  when : string;
  excinfo : option exc_info
}.

Record fixturedef := FixtureDef { argname : string }.

Record request := Request { _pyfuncitem : item }.

(** [pytest_runtest_protocol] *)
Definition pytest_runtest_protocol (it : item) : generator gstate :=
  fun sent s w =>
    match s with
    | GStart =>
        let w := emit PushScope w in
        let w := emit (AddEventProcessor "_process_event") w in
        (GYield GSuspended, w)
    | GSuspended => (GReturn, emit PopScope w)
    end.

(** The name under which the timing of a test is reported: the node id
    without its parameters. *)
Definition transaction_name (name : string) : string :=
  if endswith_char name "]" then
    let params_start := rfind name "[" in
    if negb (params_start =? -1) then slice_to name params_start else name
  else name.

(** [pytest_runtest_call] *)
Definition pytest_runtest_call (it : item) : generator gstate :=
  fun sent s w =>
    match s with
    | GStart =>
        let op := "pytest.runtest.call" in
        let name := transaction_name (nodeid it) in
        (GYield GSuspended,
         emit (StartTransaction op (op +:+ " " +:+ name)) w)
    | GSuspended => (GReturn, emit FinishTransaction w)
    end.

(** [pytest_fixture_setup] *)
Definition pytest_fixture_setup (fd : fixturedef) (rq : request)
  : generator gstate :=
  fun sent s w =>
    match s with
    | GStart =>
        let op := "pytest.fixture.setup" in
        (GYield GSuspended,
         emit (StartTransaction op (op +:+ " " +:+ argname fd)) w)
    | GSuspended => (GReturn, emit FinishTransaction w)
    end.

(** [for exc_info in cur_exc_chain: capture_exception(...)] *)
Definition capture_all (chain : list exc_info) (w : world) : world :=
  foldl (fun w e => emit (CaptureException e) w) w chain.

(** [getattr(item, "pytest_sentry_exc_chain", [])] *)
Definition exc_chain_of (it : item) (w : world) : list exc_info :=
  default [] (w_exc_chain w !! item_id it).

(** [pytest_runtest_makereport]; the value sent in at the [yield] is the
    outcome object of the hook call, whose [get_result()] raises again what
    the report hooks raised. *)
Definition pytest_runtest_makereport (it : item) (call : callinfo)
  : generator gstate :=
  fun sent s w =>
    match s with
    | GStart => (GYield GSuspended, emit (SetTag "pytest.result" "pending") w)
    | GSuspended =>
        match sent with
        | None => (GRaise (attribute_error VNone "get_result"), w)
        | Some (Raise e) => (GRaise e, w)
        | Some (Ok (VReport outcome)) =>
            let w := emit (SetTag "pytest.result" outcome) w in
            if String.eqb (when call) "call" then
              let cur_exc_chain := exc_chain_of it w in
              let '(cur_exc_chain, w) :=
                match excinfo call with
                | Some e =>
                    let c := cur_exc_chain ++ [e] in
                    (c, set_exc_chain (item_id it) c w)
                | None => (cur_exc_chain, w)
                end in
              let integration := get_integration w (w_current w) in
              if (match cur_exc_chain with [] => false | _ => true end
                  && bool_decide (excinfo call = None))%bool
              then (GReturn, capture_all cur_exc_chain w)
              else
                match integration ≫= always_report_of with
                | Some always_report =>
                    if truthy always_report
                    then (GReturn, capture_all cur_exc_chain w)
                    else (GReturn, w)
                | None => (GRaise (attribute_error VNone "always_report"), w)
                end
            else (GReturn, w)
        | Some (Ok v) => (GRaise (attribute_error v "outcome"), w)
        end
    end.

(** ** [hookwrapper] *)

(** Where the generator [_with_hub] can be suspended: not started, at the
    bare [yield] of the disabled branch, or at [yield next(gen)] inside
    [with hub], with the wrapped generator suspended in [gen]. *)
Inductive wstate (S : Type) :=
| WStart
| WBare
| WInside (hub : nat) (gen : S).
Arguments WStart {S}.
Arguments WBare {S}.
Arguments WInside {S} hub gen.

(** Leaving a [with hub:] block with [r] under way: [__exit__] runs, and
    what it raises replaces [r]. *)
Definition leave {S} (hub : nat) (r : gstep S) (w : world)
  : gstep S * world :=
  match hub_exit hub w with
  | Ok w' => (r, w')
  | Raise e => (GRaise e, w)
  end.

(** One turn of the [while True] loop from its top: enter the hub and
    advance the wrapped generator to its next [yield]. *)
Definition with_hub_next {S} (wrapped : generator S) (hub : nat) (gen : S)
    (w : world) : gstep (wstate S) * world :=
  let w := hub_enter hub w in
  match wrapped None gen w with
  | (GYield gen', w) => (GYield (WInside hub gen'), w)
  | (GReturn, w) => leave hub GReturn w
  | (GRaise e, w) => leave hub (GRaise e) w
  end.

(** [_with_hub], for the hook body [wrapped] called with [args]. *)
Definition _with_hub {Args S} (itemgetter : Args -> item)
    (wrapped : Args -> generator S) (init : S) (args : Args)
  : generator (wstate S) :=
  fun sent s w =>
    match s with
    | WStart =>
        let it := itemgetter args in
        match _resolve_hub_marker_value (sentry_client_marker it) w with
        | (Raise e, w) => (GRaise e, w)
        | (Ok hub, w) =>
            match get_integration w hub with
            | None => (GYield WBare, w)
            | Some _ =>
                (* with hub: gen = wrapped(...) *)
                match hub_exit hub (hub_enter hub w) with
                | Raise e => (GRaise e, hub_enter hub w)
                | Ok w => with_hub_next (wrapped args) hub init w
                end
            end
        end
    | WBare => (GReturn, w)
    | WInside hub gen =>
        (* y = yield ...; gen.send(y) *)
        match wrapped args sent gen w with
        | (GYield gen', w) =>
            match hub_exit hub w with
            | Ok w => with_hub_next (wrapped args) hub gen' w
            | Raise e => (GRaise e, w)
            end
        | (GReturn, w) => leave hub GReturn w
        | (GRaise e, w) => leave hub (GRaise e) w
        end
    end.

(** ** The host engine *)

Definition wrap_fail (msg : string) : exc_info :=
  new_exception "RuntimeError" ("wrap_controller " +:+ msg).

(** A hook call with one wrapper around it, as pluggy runs it: the wrapper
    is advanced to its [yield], [inner] runs and its outcome is sent in, and
    the wrapper must then finish; the call gives the outcome of [inner]
    unless the wrapper raises. *)
Definition multicall {S} (hook : generator S) (init : S)
    (inner : world -> result pyval * world) (w : world)
  : result pyval * world :=
  match hook None init w with
  | (GYield s, w) =>
      let '(outcome, w) := inner w in
      match hook (Some outcome) s w with
      | (GReturn, w) => (outcome, w)
      | (GRaise e, w) => (Raise e, w)
      | (GYield _, w) => (Raise (wrap_fail "has second yield"), w)
      end
  | (GReturn, w) => (Raise (wrap_fail "did not yield"), w)
  | (GRaise e, w) => (Raise e, w)
  end.

(** The hooks the plugin registers, with the arguments of a call. *)
Inductive hookcall :=
| RuntestProtocol (it : item)
| RuntestCall (it : item)
| FixtureSetup (fd : fixturedef) (rq : request)
| RuntestMakereport (it : item) (call : callinfo).

(** Each hook as registered: its body under [hookwrapper(itemgetter=...)]. *)
Definition registered (h : hookcall) : generator (wstate gstate) :=
  match h with
  | RuntestProtocol it =>
      _with_hub (fun it => it) pytest_runtest_protocol GStart it
  | RuntestCall it =>
      _with_hub (fun it => it) pytest_runtest_call GStart it
  | FixtureSetup fd rq =>
      _with_hub (fun a : fixturedef * request => _pyfuncitem a.2)
        (fun a => pytest_fixture_setup a.1 a.2) GStart (fd, rq)
  | RuntestMakereport it call =>
      _with_hub (fun a : item * callinfo => a.1)
        (fun a => pytest_runtest_makereport a.1 a.2) GStart (it, call)
  end.

Definition hook_item (h : hookcall) : item :=
  match h with
  | RuntestProtocol it | RuntestCall it | RuntestMakereport it _ => it
  | FixtureSetup _ rq => _pyfuncitem rq
  end.

(** What the engine and the test code do during a phase: return, raise,
    call the SDK, or call one of the wrapped hooks around an inner phase and
    go on according to its outcome. *)
Inductive phase :=
| Return (v : pyval)
| Fail (e : exc_info)
| Sdk (c : sdk_call) (k : phase)
| Hook (h : hookcall) (inner : phase) (k : result pyval -> phase).

Fixpoint run (p : phase) (w : world) : result pyval * world :=
  match p with
  | Return v => (Ok v, w)
  | Fail e => (Raise e, w)
  | Sdk c k => run k (emit c w)
  | Hook h inner k =>
      let '(outcome, w) := multicall (registered h) WStart (run inner) w in
      run (k outcome) w
  end.

(** ** The event processor *)

Definition framework_prefixes : list string :=
  ["_pytest."; "pytest."; "pluggy."].

Definition key_error (k : string) : exc_info := new_exception "KeyError" k.

Definition type_error (v : pyval) : exc_info :=
  new_exception "TypeError" (type_repr v).

(** [v[k]] for a string [k]. *)
Definition getitem (v : pyval) (k : string) : result pyval :=
  match v with
  | VDict d =>
      match dict_get k d with
      | Some x => Ok x
      | None => Raise (key_error k)
      end
  | _ => Raise (type_error v)
  end.

(** [needle in s] for strings. *)
Fixpoint substring_of (needle s : string) : bool :=
  match s with
  | EmptyString => String.prefix needle EmptyString
  | String _ s' => (String.prefix needle s || substring_of needle s')%bool
  end.

(** [k in v] for a string [k]: a key of a dict, a substring of a string, an
    element of a list. *)
Definition contains (v : pyval) (k : string) : result bool :=
  match v with
  | VDict d => Ok (dict_has k d)
  | VStr s => Ok (substring_of k s)
  | VList l =>
      Ok (existsb (fun x => match x with
                            | VStr s => String.eqb s k
                            | _ => false
                            end) l)
  | _ => Raise (type_error v)
  end.

Fixpoint characters (s : string) : list pyval :=
  match s with
  | EmptyString => []
  | String c s' => VStr (String c EmptyString) :: characters s'
  end.

(** What [for x in v] goes through. *)
Definition iterate (v : pyval) : result (list pyval) :=
  match v with
  | VList l => Ok l
  | VDict d => Ok (map (fun kv => VStr kv.1) d)
  | VStr s => Ok (characters s)
  | _ => Raise (type_error v)
  end.

(** The container [v] once the loop body has turned its elements into
    [xs']; only the elements of a list are objects the body can change. *)
Definition iterated (v : pyval) (xs' : list pyval) : pyval :=
  match v with
  | VList _ => VList xs'
  | _ => v
  end.

(** [v[k] = x] *)
Definition setitem (v : pyval) (k : string) (x : pyval) : result pyval :=
  match v with
  | VDict d => Ok (VDict (dict_set k x d))
  | _ => Raise (type_error v)
  end.

(** The body of the loop of [_process_stacktrace]. *)
Definition process_frame (frame : pyval) : result pyval :=
  module ← getitem frame "module";
  match module with
  | VStr m =>
      setitem frame "in_app"
        (VBool (negb (startswith_any m framework_prefixes)))
  | v => Raise (attribute_error v "startswith")
  end.

(** [_process_stacktrace]; the result is the stack trace as the function
    leaves it. *)
Definition _process_stacktrace (stacktrace : pyval) : result pyval :=
  frames ← getitem stacktrace "frames";
  fs ← iterate frames;
  fs' ← rmap process_frame fs;
  setitem stacktrace "frames" (iterated frames fs').

(** The body of the loop of [_process_event]. *)
Definition process_exception (exception : pyval) : result pyval :=
  has ← contains exception "stacktrace";
  if has : bool then
    st ← getitem exception "stacktrace";
    st' ← _process_stacktrace st;
    setitem exception "stacktrace" st'
  else Ok exception.

(** [_process_event]; when it raises, what it had changed until then is
    not kept track of. *)
Definition _process_event (event : dict) (hint : pyval) : result pyval :=
  event ←
    (if dict_has "exception" event then
       exc ← getitem (VDict event) "exception";
       values ← getitem exc "values";
       vs ← iterate values;
       vs' ← rmap process_exception vs;
       exc' ← setitem exc "values" (iterated values vs');
       Ok (dict_set "exception" exc' event)
     else Ok event);
  event ←
    (if dict_has "stacktrace" event then
       st ← getitem (VDict event) "stacktrace";
       st' ← _process_stacktrace st;
       Ok (dict_set "stacktrace" st' event)
     else Ok event);
  Ok (VDict event).

(** ** Notions used to state the properties *)

(** [s] ends with the character [c]. *)
Definition ends_with (s : string) (c : ascii) : Prop :=
  exists p, s = p +:+ String c EmptyString.

(** The character [c] occurs in [s]. *)
Definition occurs (c : ascii) (s : string) : Prop :=
  exists a b, s = a +:+ String c b.

(** [m] starts with one of the framework prefixes. *)
Definition framework_module (m : string) : Prop :=
  exists p rest, p ∈ framework_prefixes /\ m = p +:+ rest.

(** The dicts [d] and [d'] hold the same value, or none, under every key
    but [k0]. *)
Definition agree_off (k0 : string) (d d' : dict) : Prop :=
  forall k, k <> k0 -> dict_get k d' = dict_get k d.

(** [v'] is [v], or both are lists whose elements are related by [R]. *)
Definition elements_rel (R : pyval -> pyval -> Prop) (v v' : pyval) : Prop :=
  v' = v \/
  exists xs xs', v = VList xs /\ v' = VList xs' /\ Forall2 R xs xs'.

(** [f'] is the frame [f] with at most its [in_app] changed. *)
Definition frame_rel (f f' : pyval) : Prop :=
  exists d d', f = VDict d /\ f' = VDict d' /\ agree_off "in_app" d d'.

Definition stacktrace_rel (s s' : pyval) : Prop :=
  exists d d' fr fr',
    s = VDict d /\ s' = VDict d' /\ agree_off "frames" d d' /\
    dict_get "frames" d = Some fr /\ dict_get "frames" d' = Some fr' /\
    elements_rel frame_rel fr fr'.

Definition entry_rel (e e' : pyval) : Prop :=
  e' = e \/
  exists d d' st st',
    e = VDict d /\ e' = VDict d' /\ agree_off "stacktrace" d d' /\
    dict_get "stacktrace" d = Some st /\
    dict_get "stacktrace" d' = Some st' /\ stacktrace_rel st st'.

Definition exception_rel (x x' : pyval) : Prop :=
  exists d d' vs vs',
    x = VDict d /\ x' = VDict d' /\ agree_off "values" d d' /\
    dict_get "values" d = Some vs /\ dict_get "values" d' = Some vs' /\
    elements_rel entry_rel vs vs'.

(** [ev'] is the event [ev] with at most the [in_app] of stack frames
    changed. *)
Definition event_rel (ev ev' : dict) : Prop :=
  (forall k, k <> "exception" -> k <> "stacktrace" ->
     dict_get k ev' = dict_get k ev) /\
  option_Forall2 exception_rel
    (dict_get "exception" ev) (dict_get "exception" ev') /\
  option_Forall2 stacktrace_rel
    (dict_get "stacktrace" ev) (dict_get "stacktrace" ev').

(** The frame carries the mark its module name calls for: in application
    code exactly when the name has no framework prefix. *)
Definition marked (f : pyval) : Prop :=
  exists d m b,
    f = VDict d /\ dict_get "module" d = Some (VStr m) /\
    dict_get "in_app" d = Some (VBool b) /\
    (b = true <-> ~ framework_module m).

Definition stacktrace_frames (st : pyval) : list pyval :=
  match st with
  | VDict d =>
      match dict_get "frames" d with
      | Some (VList fs) => fs
      | _ => []
      end
  | _ => []
  end.

Definition entry_frames (e : pyval) : list pyval :=
  match e with
  | VDict d =>
      match dict_get "stacktrace" d with
      | Some st => stacktrace_frames st
      | None => []
      end
  | _ => []
  end.

(** The stack frames of an event: those of the stack trace of each
    exception entry, then those of the stack trace of the event itself. *)
Definition event_frames (ev : dict) : list pyval :=
  match dict_get "exception" ev with
  | Some (VDict x) =>
      match dict_get "values" x with
      | Some (VList vs) => concat (map entry_frames vs)
      | _ => []
      end
  | _ => []
  end ++
  match dict_get "stacktrace" ev with
  | Some st => stacktrace_frames st
  | None => []
  end.

(** Events of the shape the SDK builds. *)
Definition wf_frame (f : pyval) : bool :=
  match f with
  | VDict d =>
      match dict_get "module" d with
      | Some (VStr _) => true
      | _ => false
      end
  | _ => false
  end.

Definition wf_stacktrace (st : pyval) : bool :=
  match st with
  | VDict d =>
      match dict_get "frames" d with
      | Some (VList fs) => forallb wf_frame fs
      | _ => false
      end
  | _ => false
  end.

Definition wf_entry (e : pyval) : bool :=
  match e with
  | VDict d =>
      match dict_get "stacktrace" d with
      | Some st => wf_stacktrace st
      | None => true
      end
  | _ => false
  end.

Definition wf_event (ev : dict) : bool :=
  match dict_get "exception" ev with
  | Some (VDict x) =>
      match dict_get "values" x with
      | Some (VList vs) => forallb wf_entry vs
      | _ => false
      end
  | Some _ => false
  | None => true
  end &&
  match dict_get "stacktrace" ev with
  | Some st => wf_stacktrace st
  | None => true
  end.

Definition marks (f f' : pyval) : Prop := frame_rel f f' /\ marked f'.

(** The hub state of [w] is back in [w']: the same hub is current, and
    every hub object of [w] is as it was, new ones apart. *)
Definition restored (w w' : world) : Prop :=
  w_current w' = w_current w /\ w_hubs w `prefix_of` w_hubs w'.

(** A generator that yields at most once: resumed from where its first
    [yield] left it, it returns or raises. *)
Definition yields_once {S} (gen : generator S) (init : S) : Prop :=
  forall w s w', gen None init w = (GYield s, w') ->
  forall sent w2 s2 w3, gen sent s w2 <> (GYield s2, w3).

(** A generator that leaves the hubs alone. *)
Definition keeps_hubs {S} (gen : generator S) : Prop :=
  forall sent s w r w', gen sent s w = (r, w') ->
  w_current w' = w_current w /\ w_hubs w' = w_hubs w.

(** The failures submitted with [capture_exception], in order. *)
Definition captured (t : list trace_entry) : list exc_info :=
  omap (fun x => match x with
                 | Called _ (CaptureException e) => Some e
                 | _ => None
                 end) t.

(** One firing of the outcome hook for [it], the report hooks of the
    engine returning [report]. *)
Definition firing (it : item) (call : callinfo) (report : pyval) (w : world)
  : result pyval * world :=
  multicall (registered (RuntestMakereport it call)) WStart
    (run (Return report)) w.

(** The [always_report] of the integration of the hub that the marker of
    [it] resolves to. *)
Definition item_toggle (it : item) (w : world) : option pyval :=
  match _resolve_hub_marker_value (sentry_client_marker it) w with
  | (Ok hub, w1) => get_integration w1 hub ≫= always_report_of
  | (Raise _, _) => None
  end.

(** The chain of [it] after a firing, and what the firing submits. *)
Definition chain_after (it : item) (call : callinfo) (w : world)
  : list exc_info :=
  if String.eqb (when call) "call"
  then exc_chain_of it w ++ match excinfo call with
                            | Some e => [e]
                            | None => []
                            end
  else exc_chain_of it w.

Definition submitted (it : item) (call : callinfo) (always_report : pyval)
    (w : world) : list exc_info :=
  if String.eqb (when call) "call" then
    match excinfo call with
    | Some e => if truthy always_report then exc_chain_of it w ++ [e] else []
    | None => exc_chain_of it w
    end
  else [].





(** ** Notions used to state further properties *)

(** The attribute [pytest_sentry_exc_chain] of the item of identity [j],
    empty when the item has none. *)
Definition chain_at (j : nat) (w : world) : list exc_info :=
  default [] (w_exc_chain w !! j).

(** From [w] to [w'] nothing recorded is lost: the SDK and the environment
    are the same, and the trace, the list of invoked callables and the chain
    of every item are extended at their end. *)
Definition grows (w w' : world) : Prop :=
  w_sdk w' = w_sdk w /\
  w_env w' = w_env w /\
  w_trace w `prefix_of` w_trace w' /\
  w_invoked w `prefix_of` w_invoked w' /\
  forall j, chain_at j w `prefix_of` chain_at j w'.

(** A generator that only adds to what is recorded. *)
Definition only_adds {S} (gen : generator S) : Prop :=
  forall sent s w r w', gen sent s w = (r, w') -> grows w w'.

(** The SDK calls a hook body makes before its [yield], and after it when
    the phase has gone through. *)
Definition opening (h : hookcall) : list sdk_call :=
  match h with
  | RuntestProtocol _ => [PushScope; AddEventProcessor "_process_event"]
  | RuntestCall it =>
      [StartTransaction "pytest.runtest.call"
         ("pytest.runtest.call" +:+ " "
            +:+ transaction_name (nodeid it))]
  | FixtureSetup fd _ =>
      [StartTransaction "pytest.fixture.setup"
         ("pytest.fixture.setup" +:+ " " +:+ argname fd)]
  | RuntestMakereport _ _ => [SetTag "pytest.result" "pending"]
  end.

Definition closing (h : hookcall) : list sdk_call :=
  match h with
  | RuntestProtocol _ => [PopScope]
  | RuntestCall _ | FixtureSetup _ _ => [FinishTransaction]
  | RuntestMakereport _ _ => []
  end.

Definition is_makereport (h : hookcall) : bool :=
  match h with RuntestMakereport _ _ => true | _ => false end.

(** The world in which the phase wrapped by an enabled hook call starts,
    [w1] being the world the resolver left and [hub] the hub it gave: the
    hub has been entered, left and entered again, and the body has made its
    opening calls. *)
Definition phase_world (h : hookcall) (hub : nat) (w1 : world) : world :=
  foldl (fun w c => emit c w)
    (hub_enter hub (record (Exited hub) (record (Entered hub) w1)))
    (opening h).

(** The trace entries of submitting [chain] on [hub]. *)
Definition submissions (hub : nat) (chain : list exc_info)
  : list trace_entry :=
  map (fun e => Called hub (CaptureException e)) chain.
(** What the outcome hook raises when what the report hooks gave is not a
    report: their exception, or the missing attribute. *)
Definition report_error (o : result pyval) : option exc_info :=
  match o with
  | Raise e => Some e
  | Ok (VReport _) => None
  | Ok v => Some (attribute_error v "outcome")
  end.

Definition outcome_phase (o : result pyval) : phase :=
  match o with
  | Ok v => Return v
  | Raise e => Fail e
  end.

(** The marker values for which the resolver makes a hub: [None], a
    string, a dict, a [Client], or a callable returning one of these. *)
Definition makes_hub (v : pyval) : bool :=
  match v with
  | VNone | VStr _ | VDict _ | VClient _ _ => true
  | VCallable _ (VNone | VStr _ | VDict _ | VClient _ _) => true
  | _ => false
  end.

(** The policy read from the environment. *)
Definition environ_policy (env : environ) : pyval :=
  VBool (in_truthy_forms
           (lower (environ_get_str env "PYTEST_SENTRY_ALWAYS_REPORT" ""))).

(** The keyword arguments [Client] can work with: [_experiments], when
    given, is a dict and [integrations], when given, a list. *)
Definition experiments_ok (kwargs : dict) : bool :=
  match dict_get "_experiments" kwargs with
  | None | Some (VDict _) => true
  | Some _ => false
  end.

Definition integrations_ok (kwargs : dict) : bool :=
  match dict_get "integrations" kwargs with
  | None | Some (VList _) => true
  | Some _ => false
  end.

Definition client_kwargs_ok (kwargs : dict) : bool :=
  experiments_ok kwargs && integrations_ok kwargs.

(** The built-in values that have no method [setdefault], and those that
    have no method [append]. *)
Definition lacks_setdefault (v : pyval) : bool :=
  match v with
  | VNone | VBool _ | VInt _ | VFloat _ | VStr _ | VList _ => true
  | _ => false
  end.

Definition lacks_append (v : pyval) : bool :=
  match v with
  | VNone | VBool _ | VInt _ | VFloat _ | VStr _ | VDict _ => true
  | _ => false
  end.

(** The phase [p], started in [w], makes the SDK call [c] itself: at its
    start, after other calls of its own, or after a hook call it makes
    has returned; calls made inside that hook call are not counted. *)
Inductive calls_directly (c : sdk_call) : phase -> world -> Prop :=
| calls_here k w : calls_directly c (Sdk c k) w
| calls_later c' k w :
    calls_directly c k (emit c' w) -> calls_directly c (Sdk c' k) w
| calls_after h inner k w :
    calls_directly c
      (k (multicall (registered h) WStart (run inner) w).1)
      (multicall (registered h) WStart (run inner) w).2 ->
    calls_directly c (Hook h inner k) w.

(** ** Sample data *)

Definition sample_item : item :=
  Item 7 "tests/test_a.py::test_x[1-2]" None.

Definition sample_frames (in_app : list pyval) : pyval :=
  VDict [("frames",
          VList [VDict ([("module", VStr "pluggy._hooks"); ("lineno", VInt 3)]
                          ++ match in_app with
                             | a :: _ => [("in_app", a)]
                             | [] => []
                             end);
                 VDict ([("module", VStr "myproject.mymodule")]
                          ++ match in_app with
                             | _ :: b :: _ => [("in_app", b)]
                             | _ => []
                             end)])].

Definition sample_event (in_app : list pyval) : dict :=
  [("level", VStr "error");
   ("exception",
    VDict [("values",
            VList [VDict [("type", VStr "ValueError");
                          ("stacktrace", sample_frames in_app)];
                   VDict [("type", VStr "KeyError")]])]);
   ("stacktrace", sample_frames in_app)].

Definition disabled_item : item :=
  Item 8 "tests/test_a.py::test_y" (Some (Marker [VNone] [])).

Definition sample_failure : exc_info := ExcInfo "ValueError" "boom" 3.

(** The failure that an outcome carries, as [call.excinfo] has it. *)
Definition outcome_excinfo (o : result pyval) : option exc_info :=
  match o with
  | Raise e => Some e
  | Ok _ => None
  end.

(** The phases of one test as the runner goes through them: inside the
    protocol hook a fixture is set up, the test body runs inside the call
    hook, and the outcome hook fires for the call. *)
Definition sample_protocol (it : item) (test : phase) : phase :=
  Hook (RuntestProtocol it)
    (Hook (FixtureSetup (FixtureDef "tmp_path") (Request it)) (Return VNone)
       (fun _ =>
          Hook (RuntestCall it) test
            (fun o =>
               Hook (RuntestMakereport it
                       (CallInfo "call" (outcome_excinfo o)))
                 (Return (VReport match o with
                                  | Ok _ => "passed"
                                  | Raise _ => "failed"
                                  end))
                 (fun _ => Return VNone))))
    (fun _ => Return VNone).

Definition always_report_environ : environ :=
  {[ "PYTEST_SENTRY_ALWAYS_REPORT" := "1" ]}.

Definition bare_marker_item : item :=
  Item 9 "tests/test_a.py::test_w" (Some (Marker [] [("client", VNone)])).

Definition dsn_item : item :=
  Item 10 "tests/test_b.py::test_z"
    (Some (Marker [VStr "https://key@example.invalid/1"] [])).

Definition headless_frame : pyval := VDict [("module", VNone)].

(** An SDK that, as [sentry_sdk] does, refuses a positional DSN whose
    scheme is neither http nor https, and the world after the imports with
    it. *)
Definition bad_dsn : exc_info := new_exception "BadDsn" "Unsupported scheme ''".

Definition strict_sdk : sdk_constructor :=
  fun args _ =>
    match args with
    | VStr s :: _ =>
        if startswith_any s ["http://"; "https://"] then None
        else Some bad_dsn
    | _ => None
    end.

Definition strict_world : world := initial_world_with strict_sdk ∅.

Definition rejected_item : item :=
  Item 11 "tests/test_b.py::test_r" (Some (Marker [VStr "not-a-dsn"] [])).

Definition headless_event : dict :=
  [("stacktrace", VDict [("frames", VList [headless_frame])])].

(** * Properties *)

(** ** Strings *)

Lemma append_nil (t : string) : EmptyString +:+ t = t.
Proof. reflexivity. Qed.

Lemma append_cons (a : ascii) (s t : string) :
  String a s +:+ t = String a (s +:+ t).
Proof. reflexivity. Qed.

Ltac sapp := rewrite ?append_cons, ?append_nil.
Tactic Notation "sapp" "in" hyp(H) := rewrite ?append_cons, ?append_nil in H.

Lemma append_empty_r (s : string) : s +:+ EmptyString = s.
Proof. induction s as [|a s IH]; sapp; [done | by rewrite IH]. Qed.

Lemma append_assoc (a b c : string) : (a +:+ b) +:+ c = a +:+ (b +:+ c).
Proof. induction a as [|x a IH]; sapp; [done | by rewrite IH]. Qed.

Lemma endswith_char_spec (s : string) (c : ascii) :
  endswith_char s c = true <-> ends_with s c.
Proof.
  induction s as [|a s IH]; simpl.
  - split; [done |]. intros [[|x p] Hp]; sapp in Hp; discriminate.
  - destruct s as [|b s].
    + rewrite Ascii.eqb_eq. split.
      * intros ->. by exists EmptyString.
      * intros [[|x p] Hp]; sapp in Hp; [congruence |].
        destruct p; sapp in Hp; discriminate.
    + rewrite IH. split.
      * intros [p Hp]. exists (String a p). sapp. by rewrite Hp.
      * intros [[|x p] Hp]; sapp in Hp; [discriminate |].
        exists p. congruence.
Qed.

Lemma occurs_cons (c a : ascii) (s : string) :
  occurs c (String a s) <-> a = c \/ occurs c s.
Proof.
  split.
  - intros [[|x p] [b Hb]]; sapp in Hb.
    + left. congruence.
    + right. exists p, b. congruence.
  - intros [-> | [p [b Hb]]].
    + by exists EmptyString, s.
    + exists (String a p), b. sapp. by rewrite Hb.
Qed.

Lemma occurs_empty (c : ascii) : ~ occurs c EmptyString.
Proof. intros [[|x p] [b Hb]]; sapp in Hb; discriminate. Qed.

Lemma rfind_from_range (s : string) (c : ascii) (i : Z) :
  rfind_from s c i = -1 \/ i <= rfind_from s c i.
Proof.
  revert i. induction s as [|a s IH]; intros i; simpl; [by left |].
  destruct (Z.eqb_spec (rfind_from s c (i + 1)) (-1)) as [E | E].
  - destruct (Ascii.eqb a c); [right; lia | by left].
  - right. destruct (IH (i + 1)); [done | lia].
Qed.

Lemma rfind_from_none (s : string) (c : ascii) (i : Z) :
  0 <= i -> rfind_from s c i = -1 <-> ~ occurs c s.
Proof.
  revert i. induction s as [|a s IH]; intros i Hi; simpl.
  - split; [intros _; apply occurs_empty | done].
  - rewrite occurs_cons.
    destruct (Z.eqb_spec (rfind_from s c (i + 1)) (-1)) as [E | E].
    + apply IH in E; [| lia].
      destruct (Ascii.eqb_spec a c) as [-> | Hne].
      * split; [lia | intros H; exfalso; apply H; by left].
      * split; [intros _ [? | ?]; done | done].
    + split; [done |]. intros H. exfalso. apply E. apply IH; [lia |].
      intros ?. apply H. by right.
Qed.

Lemma rfind_from_last (a b : string) (c : ascii) (i : Z) :
  0 <= i -> ~ occurs c b ->
  rfind_from (a +:+ String c b) c i = i + Z.of_nat (String.length a).
Proof.
  revert i. induction a as [|x a IH]; intros i Hi Hb; sapp; simpl.
  - apply (rfind_from_none b c (i + 1)) in Hb; [| lia].
    rewrite Hb. simpl. rewrite Ascii.eqb_refl. lia.
  - rewrite IH by (lia || done).
    destruct (Z.eqb_spec (i + 1 + Z.of_nat (String.length a)) (-1)); lia.
Qed.

Lemma slice_to_app (a r : string) :
  slice_to (a +:+ r) (Z.of_nat (String.length a)) = a.
Proof.
  unfold slice_to. rewrite Nat2Z.id.
  induction a as [|x a IH]; sapp; simpl.
  - by destruct r.
  - by rewrite IH.
Qed.

Lemma prefix_spec (p s : string) :
  String.prefix p s = true <-> exists rest, s = p +:+ rest.
Proof.
  revert s. induction p as [|a p IH]; intros s; simpl.
  - split; [intros _; exists s; reflexivity | intros _; by destruct s].
  - destruct s as [|b s].
    + split; [done | intros [rest H]; discriminate].
    + simpl. destruct (Ascii.ascii_dec a b) as [-> | Hne].
      * rewrite IH. split; intros [rest H]; exists rest.
        -- change (String b p +:+ rest) with (String b (p +:+ rest)).
           by rewrite H.
        -- change (String b p +:+ rest) with (String b (p +:+ rest)) in H.
           congruence.
      * split; [done |]. intros [rest H].
        change (String a p +:+ rest) with (String a (p +:+ rest)) in H.
        congruence.
Qed.

Lemma startswith_any_spec (m : string) :
  startswith_any m framework_prefixes = true <-> framework_module m.
Proof.
  unfold startswith_any, framework_module. rewrite existsb_exists. split.
  - intros (p & Hin & Hp). apply prefix_spec in Hp as [rest ->].
    exists p, rest. split; [by apply list_elem_of_In | done].
  - intros (p & rest & Hin & ->). exists p.
    split; [by apply list_elem_of_In |]. apply prefix_spec. by exists rest.
Qed.

(** ** Dicts and events *)

Lemma dict_get_set_eq (k : string) (v : pyval) (d : dict) :
  dict_get k (dict_set k v d) = Some v.
Proof.
  induction d as [|[k' v'] d IH]; simpl.
  - by rewrite String.eqb_refl.
  - destruct (String.eqb k k') eqn:E; simpl; rewrite E; [done | exact IH].
Qed.

Lemma dict_get_set_ne (k k' : string) (v : pyval) (d : dict) :
  k' <> k -> dict_get k' (dict_set k v d) = dict_get k' d.
Proof.
  intros Hne. induction d as [|[k0 v0] d IH]; simpl.
  - destruct (String.eqb_spec k' k); [done | done].
  - destruct (String.eqb_spec k k0) as [-> | E]; simpl.
    + destruct (String.eqb_spec k' k0); [done | done].
    + by rewrite IH.
Qed.

Lemma dict_set_same (k : string) (v : pyval) (d : dict) :
  dict_get k d = Some v -> dict_set k v d = d.
Proof.
  induction d as [|[k0 v0] d IH]; simpl; [done |].
  destruct (String.eqb_spec k k0) as [-> | E].
  - by intros [= ->].
  - intros H. by rewrite IH.
Qed.

Lemma agree_off_set (k : string) (v : pyval) (d : dict) :
  agree_off k d (dict_set k v d).
Proof. intros k' Hne. by apply dict_get_set_ne. Qed.

Lemma rbind_ok {A B} (r : result A) (f : A -> result B) (b : B) :
  r ≫= f = Ok b -> exists a, r = Ok a /\ f a = Ok b.
Proof. destruct r as [a | e]; simpl; [eauto | done]. Qed.

Lemma rmap_Forall2 {A B} (f : A -> result B) (R : A -> B -> Prop)
    (xs : list A) (ys : list B) :
  (forall x y, f x = Ok y -> R x y) ->
  rmap f xs = Ok ys -> Forall2 R xs ys.
Proof.
  intros Hf. revert ys. induction xs as [|x xs IH]; intros ys; simpl.
  - intros [= <-]. constructor.
  - intros H. apply rbind_ok in H as (y & Hy & H).
    apply rbind_ok in H as (ys' & Hys & H). injection H as <-.
    constructor; [by apply Hf | by apply IH].
Qed.

Lemma rmap_total {A B} (f : A -> result B) (xs : list A) :
  Forall (fun x => exists y, f x = Ok y) xs -> exists ys, rmap f xs = Ok ys.
Proof.
  induction 1 as [|x xs [y Hy] _ [ys Hys]]; simpl; [by eexists |].
  rewrite Hy. simpl. rewrite Hys. simpl. by eexists.
Qed.

Lemma process_frame_marks (f f' : pyval) :
  process_frame f = Ok f' -> marks f f'.
Proof.
  unfold process_frame. intros H. apply rbind_ok in H as (m & Hm & H).
  destruct f as [| | | | | |d| | | | | | |]; try discriminate.
  simpl in Hm. destruct (dict_get "module" d) as [x|] eqn:Hd; [| done].
  injection Hm as ->. destruct m; try discriminate.
  unfold setitem in H. injection H as <-.
  set (b := negb (startswith_any s framework_prefixes)). split.
  - exists d, (dict_set "in_app" (VBool b) d).
    split; [done |]. split; [done |]. apply agree_off_set.
  - exists (dict_set "in_app" (VBool b) d), s, b.
    split; [done |]. split; [| split].
    + by rewrite dict_get_set_ne.
    + apply dict_get_set_eq.
    + rewrite <- startswith_any_spec. unfold b.
      destruct (startswith_any s framework_prefixes); simpl.
      * split; [done | intros H; exfalso; by apply H].
      * split; [by intros _ ? | done].
Qed.

Lemma process_stacktrace_marks (st st' : pyval) :
  _process_stacktrace st = Ok st' ->
  stacktrace_rel st st' /\
  Forall2 marks (stacktrace_frames st) (stacktrace_frames st').
Proof.
  unfold _process_stacktrace. intros H.
  apply rbind_ok in H as (fr & Hfr & H).
  apply rbind_ok in H as (fs & Hfs & H).
  apply rbind_ok in H as (fs' & Hfs' & H).
  destruct st as [| | | | | |d| | | | | | |]; try discriminate.
  simpl in Hfr. destruct (dict_get "frames" d) as [x|] eqn:Hd; [| done].
  injection Hfr as ->. simpl in H. injection H as <-.
  assert (Hget : dict_get "frames" (dict_set "frames" (iterated fr fs') d)
                 = Some (iterated fr fs')) by apply dict_get_set_eq.
  assert (Hel : elements_rel frame_rel fr (iterated fr fs') /\
                Forall2 marks
                  (match fr with VList l => l | _ => [] end)
                  (match iterated fr fs' with VList l => l | _ => [] end)).
  { destruct fr; try (split; [by left | constructor]).
    simpl in Hfs. injection Hfs as <-.
    apply (rmap_Forall2 _ marks) in Hfs'; [| apply process_frame_marks].
    split; [| exact Hfs']. right. eexists _, _. split; [done |].
    split; [done |]. eapply Forall2_impl; [exact Hfs' |]. by intros ? ? []. }
  destruct Hel as [Hel HF]. split.
  - exists d, (dict_set "frames" (iterated fr fs') d), fr, (iterated fr fs').
    repeat split; try done. apply agree_off_set.
  - simpl. rewrite Hd, Hget. exact HF.
Qed.

Lemma process_exception_marks (e e' : pyval) :
  process_exception e = Ok e' ->
  entry_rel e e' /\ Forall2 marks (entry_frames e) (entry_frames e').
Proof.
  unfold process_exception. intros H.
  apply rbind_ok in H as (has & Hhas & H). destruct has.
  - apply rbind_ok in H as (st & Hst & H).
    apply rbind_ok in H as (st' & Hst' & H).
    destruct e as [| | | | | |d| | | | | | |]; try discriminate.
    simpl in Hst. destruct (dict_get "stacktrace" d) as [x|] eqn:Hd; [| done].
    injection Hst as ->. simpl in H. injection H as <-.
    apply process_stacktrace_marks in Hst' as [Hrel HF]. split.
    + right. exists d, (dict_set "stacktrace" st' d), st, st'.
      repeat split; try done; [apply agree_off_set | apply dict_get_set_eq].
    + simpl. by rewrite Hd, dict_get_set_eq.
  - injection H as <-. split; [by left |].
    destruct e as [| | | | | |d| | | | | | |]; try constructor.
    simpl in Hhas. injection Hhas as Hhas. unfold dict_has in Hhas.
    simpl. destruct (dict_get "stacktrace" d); [done | constructor].
Qed.

Lemma Forall2_concat_map {A B} (R : A -> A -> Prop) (P : B -> B -> Prop)
    (f : A -> list B) (xs ys : list A) :
  (forall x y, R x y -> Forall2 P (f x) (f y)) ->
  Forall2 R xs ys -> Forall2 P (concat (map f xs)) (concat (map f ys)).
Proof.
  intros Hf. induction 1 as [|x y xs ys Hxy _ IH]; simpl; [constructor |].
  apply Forall2_app; [by apply Hf | exact IH].
Qed.

Lemma process_event_marks (ev : dict) (hint r : pyval) :
  _process_event ev hint = Ok r ->
  exists ev', r = VDict ev' /\ event_rel ev ev' /\
              Forall2 marks (event_frames ev) (event_frames ev').
Proof.
  unfold _process_event. intros H.
  apply rbind_ok in H as (ev1 & H1 & H).
  apply rbind_ok in H as (ev2 & H2 & H). injection H as <-.
  exists ev2. split; [done |].
  (* the exception entries *)
  assert (Hx : dict_get "stacktrace" ev1 = dict_get "stacktrace" ev /\
               (forall k, k <> "exception" -> dict_get k ev1 = dict_get k ev) /\
               option_Forall2 exception_rel
                 (dict_get "exception" ev) (dict_get "exception" ev1) /\
               Forall2 marks
                 (match dict_get "exception" ev with
                  | Some (VDict x) =>
                      match dict_get "values" x with
                      | Some (VList vs) => concat (map entry_frames vs)
                      | _ => []
                      end
                  | _ => []
                  end)
                 (match dict_get "exception" ev1 with
                  | Some (VDict x) =>
                      match dict_get "values" x with
                      | Some (VList vs) => concat (map entry_frames vs)
                      | _ => []
                      end
                  | _ => []
                  end)).
  { unfold dict_has in H1.
    destruct (dict_get "exception" ev) as [exc|] eqn:Hexc.
    - apply rbind_ok in H1 as (exc0 & He & H1). simpl in He.
      rewrite Hexc in He. injection He as <-.
      apply rbind_ok in H1 as (values & Hv & H1).
      apply rbind_ok in H1 as (vs & Hvs & H1).
      apply rbind_ok in H1 as (vs' & Hvs' & H1).
      apply rbind_ok in H1 as (exc' & Hexc' & H1). injection H1 as <-.
      destruct exc as [| | | | | |x| | | | | | |]; try discriminate.
      simpl in Hv. destruct (dict_get "values" x) as [v0|] eqn:Hx; [| done].
      injection Hv as ->. simpl in Hexc'. injection Hexc' as <-.
      rewrite dict_get_set_eq, dict_get_set_eq.
      split; [by apply dict_get_set_ne |].
      split; [intros k Hk; by apply dict_get_set_ne |].
      assert (Hel : elements_rel entry_rel values (iterated values vs') /\
                Forall2 marks
                  (match values with
                   | VList l => concat (map entry_frames l) | _ => [] end)
                  (match iterated values vs' with
                   | VList l => concat (map entry_frames l) | _ => [] end)).
      { destruct values; try (split; [by left | constructor]).
        simpl in Hvs. injection Hvs as <-.
        apply (rmap_Forall2 _ (fun e e' =>
                 entry_rel e e' /\
                 Forall2 marks (entry_frames e) (entry_frames e'))) in Hvs';
          [| apply process_exception_marks].
        split.
        - right. eexists _, _. split; [done |]. split; [done |].
          eapply Forall2_impl; [exact Hvs' |]. by intros ? ? [].
        - simpl. eapply Forall2_concat_map; [| exact Hvs'].
          by intros ? ? []. }
      destruct Hel as [Hel HF]. split; [| exact HF].
      constructor. exists x, (dict_set "values" (iterated values vs') x),
        values, (iterated values vs').
      repeat split; try done; [apply agree_off_set | apply dict_get_set_eq].
    - injection H1 as <-. rewrite Hexc.
      repeat split; try done; constructor. }
  destruct Hx as (Hst & Hother & Hexc & HFx).
  (* the stack trace of the event *)
  unfold dict_has in H2. rewrite Hst in H2.
  unfold event_rel, event_frames.
  destruct (dict_get "stacktrace" ev) as [st|] eqn:Hst0.
  - apply rbind_ok in H2 as (st0 & Hs & H2). simpl in Hs.
    rewrite Hst in Hs. injection Hs as <-.
    apply rbind_ok in H2 as (st' & Hst' & H2). injection H2 as <-.
    apply process_stacktrace_marks in Hst' as [Hrel HF].
    rewrite dict_get_set_eq, dict_get_set_ne by done.
    repeat split.
    + intros k Hk1 Hk2. rewrite dict_get_set_ne by done. by apply Hother.
    + exact Hexc.
    + by constructor.
    + apply Forall2_app; [exact HFx | exact HF].
  - injection H2 as <-. rewrite Hst.
    repeat split.
    + intros k Hk1 Hk2. by apply Hother.
    + exact Hexc.
    + constructor.
    + apply Forall2_app; [exact HFx | constructor].
Qed.

Lemma process_frame_total (f : pyval) :
  wf_frame f = true -> exists f', process_frame f = Ok f'.
Proof.
  destruct f as [| | | | | |d| | | | | | |]; try discriminate. simpl.
  unfold process_frame. simpl.
  destruct (dict_get "module" d) as [[]|]; try discriminate.
  intros _. simpl. by eexists.
Qed.

Lemma forallb_total {A B} (f : A -> result B) (wf : A -> bool) (xs : list A) :
  (forall x, wf x = true -> exists y, f x = Ok y) ->
  forallb wf xs = true -> exists ys, rmap f xs = Ok ys.
Proof.
  intros Hf H. apply rmap_total. apply Forall_forall. intros x Hx.
  apply Hf. rewrite forallb_forall in H. apply H. by apply list_elem_of_In.
Qed.

Lemma process_stacktrace_total (st : pyval) :
  wf_stacktrace st = true -> exists st', _process_stacktrace st = Ok st'.
Proof.
  destruct st as [| | | | | |d| | | | | | |]; try discriminate. simpl.
  unfold _process_stacktrace. simpl.
  destruct (dict_get "frames" d) as [[]|]; try discriminate.
  intros H. simpl.
  destruct (forallb_total process_frame wf_frame l process_frame_total H)
    as [fs' ->].
  simpl. by eexists.
Qed.

Lemma process_exception_total (e : pyval) :
  wf_entry e = true -> exists e', process_exception e = Ok e'.
Proof.
  destruct e as [| | | | | |d| | | | | | |]; try discriminate. simpl.
  unfold process_exception. simpl. unfold dict_has.
  destruct (dict_get "stacktrace" d) as [st|] eqn:Hd; [| by eexists].
  intros H. simpl.
  destruct (process_stacktrace_total st H) as [st' ->]. simpl. by eexists.
Qed.

Lemma process_event_total (ev : dict) (hint : pyval) :
  wf_event ev = true -> exists ev', _process_event ev hint = Ok (VDict ev').
Proof.
  unfold wf_event. intros H. apply andb_prop in H as [Hx Hs].
  unfold _process_event, dict_has.
  assert (Hev1 : exists ev1,
    (if match dict_get "exception" ev with Some _ => true | None => false end
     then
       exc ← getitem (VDict ev) "exception";
       values ← getitem exc "values";
       vs ← iterate values;
       vs' ← rmap process_exception vs;
       exc' ← setitem exc "values" (iterated values vs');
       Ok (dict_set "exception" exc' ev)
     else Ok ev) = Ok ev1 /\
    dict_get "stacktrace" ev1 = dict_get "stacktrace" ev).
  { simpl. destruct (dict_get "exception" ev) as [exc|]; [| by eexists].
    destruct exc as [| | | | | |x| | | | | | |]; try discriminate. simpl.
    destruct (dict_get "values" x) as [[]|]; try discriminate. simpl.
    destruct (forallb_total process_exception wf_entry l
                process_exception_total Hx) as [vs' ->].
    simpl. eexists. split; [done |]. by apply dict_get_set_ne. }
  destruct Hev1 as (ev1 & -> & Hst). simpl. rewrite Hst.
  destruct (dict_get "stacktrace" ev) as [st|]; [| by eexists].
  simpl. destruct (process_stacktrace_total st Hs) as [st' ->].
  simpl. by eexists.
Qed.

Lemma dict_setdefault_keeps (k k' : string) (v x : pyval) (d : dict) :
  dict_get k d = Some x -> dict_get k (dict_setdefault k' v d).2 = Some x.
Proof.
  intros H. unfold dict_setdefault.
  destruct (dict_get k' d) as [v'|] eqn:Hk'; simpl; [done |].
  rewrite dict_get_set_ne; [done |]. intros ->. congruence.
Qed.

Lemma dict_setdefault_fst (k : string) (v : pyval) (d : dict) :
  dict_setdefault k v d
  = ((dict_setdefault k v d).1, (dict_setdefault k v d).2).
Proof. by destruct (dict_setdefault k v d). Qed.

Lemma Client_ok (sdk : sdk_constructor) (env : environ) (args : list pyval)
    (kwargs : dict) (c : pyval) :
  Client sdk env args kwargs = Ok c ->
  exists options,
    Client_kwargs env kwargs = Ok options /\ sdk args options = None /\
    c = VClient args options.
Proof.
  unfold Client. intros H. apply rbind_ok in H as (options & H1 & H).
  exists options. destruct (sdk args options); [done |].
  by injection H as <-.
Qed.

Lemma Client_kwargs_keeps (env : environ) (kwargs options : dict) :
  Client_kwargs env kwargs = Ok options ->
  forall k x, dict_get k kwargs = Some x ->
              k <> "_experiments" -> k <> "integrations" ->
              dict_get k options = Some x.
Proof.
  unfold Client_kwargs. intros H.
  rewrite (dict_setdefault_fst "_experiments") in H.
  apply rbind_ok in H as (kw1 & H1 & H).
  rewrite (dict_setdefault_fst "integrations") in H.
  intros k x Hk Hne1 Hne2.
  destruct (dict_setdefault "integrations" _ _).1; try discriminate.
  injection H as <-. rewrite dict_get_set_ne by done.
  do 2 apply dict_setdefault_keeps.
  destruct (dict_setdefault "_experiments" _ _).1; try discriminate.
  injection H1 as <-. rewrite dict_get_set_ne by done.
  by do 3 apply dict_setdefault_keeps.
Qed.

Lemma Client_keeps_options (sdk : sdk_constructor) (env : environ)
    (args args' : list pyval) (kwargs options : dict) :
  Client sdk env args kwargs = Ok (VClient args' options) ->
  args' = args /\
  forall k x, dict_get k kwargs = Some x ->
              k <> "_experiments" -> k <> "integrations" ->
              dict_get k options = Some x.
Proof.
  intros H. apply Client_ok in H as (options' & H & _ & [= -> ->]).
  split; [done |]. by apply (Client_kwargs_keeps env).
Qed.

(** ** Hubs and hook calls *)

Global Instance restored_refl : Reflexive restored.
Proof. intros w. by split. Qed.

Global Instance restored_trans : Transitive restored.
Proof.
  intros w1 w2 w3 [H1 P1] [H2 P2]. split; [congruence | by etrans].
Qed.

Lemma same_hubs_restored (w w' : world) :
  w_current w' = w_current w -> w_hubs w' = w_hubs w -> restored w w'.
Proof. intros H1 H2. split; [done | by rewrite H2]. Qed.

Lemma alter_lookup_insert {A} (f : A -> A) (l : list A) (i : nat) (x : A) :
  l !! i = Some x -> alter f i l = <[i := f x]> l.
Proof.
  revert i. induction l as [|y l IH]; intros [|i]; simpl; try done.
  - by intros [= ->].
  - intros H. f_equal. by apply IH.
Qed.

Lemma hub_exit_restores (h : nat) (o : hub_obj) (w w2 : world) :
  w_hubs w !! h = Some o ->
  restored (hub_enter h w) w2 ->
  exists w3, hub_exit h w2 = Ok w3 /\ restored w w3 /\
             w_exc_chain w3 = w_exc_chain w2 /\ w_env w3 = w_env w2 /\
             w_invoked w3 = w_invoked w2 /\
             w_trace w3 = w_trace w2 ++ [Exited h].
Proof.
  intros Ho [Hc [ext Hp]]. simpl in Hc, Hp.
  rewrite (alter_lookup_insert _ _ _ _ Ho) in Hp.
  assert (Hlt : (h < length (w_hubs w))%nat) by by eapply lookup_lt_Some.
  assert (Hl : w_hubs w2 !! h = Some (push_old (w_current w) o)).
  { rewrite Hp. apply lookup_app_l_Some. by apply list_lookup_insert_eq. }
  unfold hub_exit. rewrite Hl. destruct o as [c old]. simpl.
  eexists. split; [done |]. repeat split; try done. simpl.
  exists ext. rewrite Hp.
  rewrite insert_app_l by by rewrite length_insert.
  rewrite list_insert_insert_eq. by rewrite list_insert_id.
Qed.

Lemma get_integration_lookup (w : world) (h : nat) (i : pyval) :
  get_integration w h = Some i -> exists o, w_hubs w !! h = Some o.
Proof. unfold get_integration. destruct (w_hubs w !! h); [eauto | done]. Qed.

Lemma resolve_restored (m : option marker) (w w' : world) (r : result nat) :
  _resolve_hub_marker_value m w = (r, w') ->
  restored w w' /\ w_trace w' = w_trace w /\
  w_exc_chain w' = w_exc_chain w /\ w_env w' = w_env w.
Proof.
  unfold _resolve_hub_marker_value, Hub. intros H.
  repeat (case_match; simplify_eq/=);
    repeat split; simpl; try done; by apply prefix_app_r.
Qed.

Section with_hub.
Context {Args S : Type}.
Variable itemgetter : Args -> item.
Variable wrapped : Args -> generator S.
Variable init : S.
Variable args : Args.
Hypothesis wrapped_keeps : keeps_hubs (wrapped args).
Hypothesis wrapped_once : yields_once (wrapped args) init.

Let hook := _with_hub itemgetter wrapped init args.

Lemma leave_restores {T} (h : nat) (o : hub_obj) (r : gstep T)
    (w w2 : world) :
  w_hubs w !! h = Some o ->
  restored (hub_enter h w) w2 ->
  exists w3, leave h r w2 = (r, w3) /\ restored w w3.
Proof.
  intros Ho Hr.
  destruct (hub_exit_restores h o w w2 Ho Hr) as (w3 & He & Hr3 & _).
  exists w3. unfold leave. by rewrite He.
Qed.

Lemma wrapped_restored sent s w r w' :
  wrapped args sent s w = (r, w') -> restored w w'.
Proof.
  intros H. apply wrapped_keeps in H as [H1 H2].
  by apply same_hubs_restored.
Qed.

(** A hook call leaves the hub state as it found it, whenever the phase
    it wraps does. *)
Lemma multicall_restored (inner : world -> result pyval * world)
    (w w' : world) (o : result pyval) :
  (forall w1 o1 w2, inner w1 = (o1, w2) -> restored w1 w2) ->
  multicall hook WStart inner w = (o, w') -> restored w w'.
Proof.
  intros Hinner. unfold multicall, hook, _with_hub.
  destruct (_resolve_hub_marker_value _ w) as [[hub | e] w1] eqn:Hres;
    [| intros [= <- <-]; by apply resolve_restored in Hres as [? _]].
  apply resolve_restored in Hres as [Hres _].
  destruct (get_integration w1 hub) as [i |] eqn:Hint.
  - apply get_integration_lookup in Hint as [ob Hob].
    destruct (hub_exit_restores hub ob w1 (hub_enter hub w1) Hob)
      as (w2 & -> & Hr2 & _); [done |].
    assert (Hob2 : w_hubs w2 !! hub = Some ob).
    { destruct Hr2 as [_ Hp]. by eapply prefix_lookup_Some. }
    unfold with_hub_next.
    destruct (wrapped args None init (hub_enter hub w2))
      as [[gen' | | e] w3] eqn:Hpre.
    + destruct (inner w3) as [o1 w4] eqn:Hin.
      destruct (wrapped args (Some o1) gen' w4) as [[gen2 | | e] w5] eqn:Hpost.
      * by apply (wrapped_once _ _ _ Hpre) in Hpost.
      * destruct (leave_restores (T:=wstate S) hub ob GReturn w2 w5 Hob2)
          as (w6 & -> & Hr6).
        { etrans; [by eapply wrapped_restored |].
          etrans; [by eapply Hinner |]. by eapply wrapped_restored. }
        intros [= <- <-]. by do 2 (etrans; [eassumption |]).
      * destruct (leave_restores (T:=wstate S) hub ob (GRaise e) w2 w5 Hob2)
          as (w6 & -> & Hr6).
        { etrans; [by eapply wrapped_restored |].
          etrans; [by eapply Hinner |]. by eapply wrapped_restored. }
        intros [= <- <-]. by do 2 (etrans; [eassumption |]).
    + destruct (leave_restores (T:=wstate S) hub ob GReturn w2 w3 Hob2)
        as (w6 & -> & Hr6); [by eapply wrapped_restored |].
      intros [= <- <-]. by do 2 (etrans; [eassumption |]).
    + destruct (leave_restores (T:=wstate S) hub ob (GRaise e) w2 w3 Hob2)
        as (w6 & -> & Hr6); [by eapply wrapped_restored |].
      intros [= <- <-]. by do 2 (etrans; [eassumption |]).
  - destruct (inner w1) as [o1 w2] eqn:Hin.
    intros [= <- <-]. etrans; [eassumption |]. by eapply Hinner.
Qed.
End with_hub.

Lemma protocol_keeps it : keeps_hubs (pytest_runtest_protocol it).
Proof. intros sent [] w r w' [= <- <-]; by split. Qed.

Lemma protocol_once it : yields_once (pytest_runtest_protocol it) GStart.
Proof. intros w s w' [= <- <-] sent w2 s2 w3. done. Qed.

Lemma call_keeps it : keeps_hubs (pytest_runtest_call it).
Proof. intros sent [] w r w' [= <- <-]; by split. Qed.

Lemma call_once it : yields_once (pytest_runtest_call it) GStart.
Proof. intros w s w' [= <- <-] sent w2 s2 w3. done. Qed.

Lemma fixture_keeps fd rq : keeps_hubs (pytest_fixture_setup fd rq).
Proof. intros sent [] w r w' [= <- <-]; by split. Qed.

Lemma fixture_once fd rq : yields_once (pytest_fixture_setup fd rq) GStart.
Proof. intros w s w' [= <- <-] sent w2 s2 w3. done. Qed.

Lemma capture_all_frame (chain : list exc_info) (w : world) :
  w_current (capture_all chain w) = w_current w /\
  w_hubs (capture_all chain w) = w_hubs w /\
  w_exc_chain (capture_all chain w) = w_exc_chain w /\
  w_env (capture_all chain w) = w_env w /\
  w_trace (capture_all chain w)
  = w_trace w ++ map (fun e => Called (w_current w) (CaptureException e)) chain.
Proof.
  unfold capture_all. revert w.
  induction chain as [|e chain IH]; intros w; simpl.
  - by rewrite app_nil_r.
  - destruct (IH (emit (CaptureException e) w)) as (H1 & H2 & H3 & H4 & H5).
    rewrite H1, H2, H3, H4, H5. simpl. by rewrite <- app_assoc.
Qed.

Lemma makereport_keeps it call : keeps_hubs (pytest_runtest_makereport it call).
Proof.
  intros sent [] w r w'; simpl; [by intros [= <- <-] |].
  intros H.
  repeat (case_match; simplify_eq/=); try done.
  all: match goal with |- context [capture_all ?c ?w] =>
         destruct (capture_all_frame c w) as (-> & -> & _) end; try done.
Qed.

Lemma makereport_once it call :
  yields_once (pytest_runtest_makereport it call) GStart.
Proof.
  intros w s w' [= <- <-] sent w2 s2 w3. simpl.
  repeat (case_match; simplify_eq/=); done.
Qed.

Lemma registered_restored (h : hookcall)
    (inner : world -> result pyval * world) (w w' : world)
    (o : result pyval) :
  (forall w1 o1 w2, inner w1 = (o1, w2) -> restored w1 w2) ->
  multicall (registered h) WStart inner w = (o, w') -> restored w w'.
Proof.
  destruct h as [it | it | fd rq | it call]; simpl;
    apply multicall_restored;
    auto using protocol_keeps, protocol_once, call_keeps, call_once,
      fixture_keeps, fixture_once, makereport_keeps, makereport_once.
Qed.

Lemma emit_restored (c : sdk_call) (w : world) : restored w (emit c w).
Proof. by apply same_hubs_restored. Qed.

Lemma run_restored (p : phase) (w w' : world) (o : result pyval) :
  run p w = (o, w') -> restored w w'.
Proof.
  revert w w' o. induction p as [v | e | c k IH | h inner IHi k IHk];
    intros w w' o; simpl.
  - by intros [= <- <-].
  - by intros [= <- <-].
  - intros H. etrans; [apply emit_restored | by eapply IH].
  - destruct (multicall (registered h) WStart (run inner) w)
      as [o1 w1] eqn:Hm.
    intros H. etrans; [| by eapply IHk].
    eapply registered_restored; [| exact Hm]. intros ? ? ?. apply IHi.
Qed.

Local Arguments capture_all : simpl never.

Lemma captured_app (t1 t2 : list trace_entry) :
  captured (t1 ++ t2) = captured t1 ++ captured t2.
Proof. apply omap_app. Qed.

Lemma captured_captures (h : nat) (chain : list exc_info) :
  captured (map (fun e => Called h (CaptureException e)) chain) = chain.
Proof. induction chain as [|e c IH]; simpl; [done | by rewrite IH]. Qed.

Lemma exc_chain_of_set (it : item) (c : list exc_info) (w : world) :
  exc_chain_of it (set_exc_chain (item_id it) c w) = c.
Proof. unfold exc_chain_of. simpl. by rewrite lookup_insert_eq. Qed.

Lemma makereport_post (it : item) (call : callinfo) (outcome : string)
    (w : world) (ar : pyval) :
  get_integration w (w_current w) ≫= always_report_of = Some ar ->
  exists w',
    pytest_runtest_makereport it call (Some (Ok (VReport outcome)))
      GSuspended w = (GReturn, w') /\
    w_current w' = w_current w /\ w_hubs w' = w_hubs w /\
    w_env w' = w_env w /\
    (forall j, j <> item_id it ->
       w_exc_chain w' !! j = w_exc_chain w !! j) /\
    exc_chain_of it w' = chain_after it call w /\
    captured (w_trace w')
    = captured (w_trace w) ++ submitted it call ar w.
Proof.
  intros Hint. unfold chain_after, submitted. simpl.
  destruct (String.eqb (when call) "call").
  - change (exc_chain_of it (emit (SetTag "pytest.result" outcome) w))
      with (exc_chain_of it w).
    destruct (excinfo call) as [e|] eqn:He; simpl.
    + rewrite andb_false_r. unfold get_integration in *. simpl.
      rewrite Hint. destruct (truthy ar).
      * eexists. split; [done |].
        match goal with |- context [capture_all ?c ?w0] =>
          destruct (capture_all_frame c w0) as (-> & -> & -> & -> & ->) end.
        simpl. rewrite captured_app, captured_app, captured_captures. simpl.
        rewrite ?app_nil_r. repeat split; try done.
        -- intros j Hj. by rewrite lookup_insert_ne.
        -- unfold exc_chain_of at 1.
           match goal with |- context [capture_all ?c ?w0] =>
             destruct (capture_all_frame c w0) as (_ & _ & -> & _) end.
           simpl. by rewrite lookup_insert_eq.
      * eexists. split; [done |]. simpl.
        rewrite captured_app. simpl. rewrite !app_nil_r.
        repeat split; try done.
        -- intros j Hj. by rewrite lookup_insert_ne.
        -- unfold exc_chain_of at 1. simpl. by rewrite lookup_insert_eq.
    + rewrite andb_true_r.
      destruct (exc_chain_of it w) as [|x l] eqn:Hc.
      * unfold get_integration in *. simpl. rewrite Hint.
        destruct (truthy ar); simpl; eexists; (split; [done |]); simpl;
          rewrite captured_app; simpl; rewrite ?app_nil_r;
          repeat split; try done; by rewrite Hc.
      * eexists. split; [done |].
        match goal with |- context [capture_all ?c ?w0] =>
          destruct (capture_all_frame c w0) as (-> & -> & -> & -> & ->) end.
        rewrite captured_app, captured_captures. simpl.
        rewrite captured_app. simpl.
        rewrite ?app_nil_r. repeat split; try done.
        unfold exc_chain_of at 1.
        match goal with |- context [capture_all ?c ?w0] =>
          destruct (capture_all_frame c w0) as (_ & _ & -> & _) end.
        simpl. fold (exc_chain_of it w). by rewrite Hc.
  - eexists. split; [done |]. simpl. rewrite captured_app. simpl.
    rewrite !app_nil_r. by repeat split.
Qed.

Lemma get_integration_enter (h h' : nat) (w : world) :
  get_integration (hub_enter h w) h' = get_integration w h'.
Proof.
  unfold get_integration. simpl. rewrite list_lookup_alter.
  case_decide; [subst |]; [| done].
  by destruct (w_hubs w !! h').
Qed.

Lemma get_integration_prefix (w w' : world) (h : nat) (i : pyval) :
  w_hubs w `prefix_of` w_hubs w' -> get_integration w h = Some i ->
  get_integration w' h = Some i.
Proof.
  intros Hp. unfold get_integration.
  destruct (w_hubs w !! h) as [o|] eqn:Ho; [| done].
  by rewrite (prefix_lookup_Some _ _ _ _ Ho Hp).
Qed.

Lemma get_integration_restored (w w' : world) (h : nat) (i : pyval) :
  restored w w' -> get_integration w h = Some i ->
  get_integration w' h = Some i.
Proof. intros [_ Hp]. by apply get_integration_prefix. Qed.

Lemma chain_after_ext (it : item) (call : callinfo) (w w' : world) :
  w_exc_chain w' = w_exc_chain w ->
  chain_after it call w' = chain_after it call w.
Proof. intros H. unfold chain_after, exc_chain_of. by rewrite H. Qed.

Lemma submitted_ext (it : item) (call : callinfo) (ar : pyval)
    (w w' : world) :
  w_exc_chain w' = w_exc_chain w ->
  submitted it call ar w' = submitted it call ar w.
Proof. intros H. unfold submitted, exc_chain_of. by rewrite H. Qed.

Local Arguments pytest_runtest_makereport : simpl never.
Local Arguments hub_enter : simpl never.
Local Arguments hub_exit : simpl never.

Lemma firing_spec (it : item) (call : callinfo) (outcome : string)
    (w : world) (ar : pyval) :
  item_toggle it w = Some ar ->
  exists w',
    firing it call (VReport outcome) w = (Ok (VReport outcome), w') /\
    restored w w' /\ w_env w' = w_env w /\
    (forall j, j <> item_id it ->
       w_exc_chain w' !! j = w_exc_chain w !! j) /\
    exc_chain_of it w' = chain_after it call w /\
    captured (w_trace w')
    = captured (w_trace w) ++ submitted it call ar w.
Proof.
  unfold item_toggle, firing, multicall, registered, _with_hub. simpl.
  destruct (_resolve_hub_marker_value (sentry_client_marker it) w)
    as [[hub | e] wr] eqn:Hres; [| done].
  apply resolve_restored in Hres as (Hr & Ht & Hc & He).
  destruct (get_integration wr hub) as [i|] eqn:Hint; [| done].
  simpl. intros Har.
  destruct (get_integration_lookup _ _ _ Hint) as [ob Hob].
  destruct (hub_exit_restores hub ob wr (hub_enter hub wr) Hob)
    as (w2 & -> & Hr2 & Hc2 & He2 & _ & Ht2); [done |].
  assert (Hob2 : w_hubs w2 !! hub = Some ob).
  { destruct Hr2 as [_ Hp]. by eapply prefix_lookup_Some. }
  unfold with_hub_next.
  change (pytest_runtest_makereport it call None GStart (hub_enter hub w2))
    with (GYield GSuspended,
          emit (SetTag "pytest.result" "pending") (hub_enter hub w2)).
  simpl.
  destruct (makereport_post it call outcome
              (emit (SetTag "pytest.result" "pending") (hub_enter hub w2)) ar)
    as (w5 & -> & H5c & H5h & H5e & H5o & H5x & H5t).
  { change (get_integration (hub_enter hub w2) hub ≫= always_report_of
            = Some ar).
    rewrite get_integration_enter.
    by rewrite (get_integration_restored _ _ _ _ Hr2 Hint). }
  destruct (hub_exit_restores hub ob w2 w5 Hob2)
    as (w6 & H6 & Hr6 & Hc6 & He6 & _ & Ht6).
  { by apply same_hubs_restored. }
  unfold leave. rewrite H6. exists w6. split; [done |].
  split; [by do 2 (etrans; [eassumption |]) |].
  unfold hub_enter in *. simpl in *.
  split; [congruence |].
  split; [intros j Hj; rewrite Hc6, (H5o j Hj); congruence |].
  split.
  - unfold exc_chain_of at 1. rewrite Hc6. fold (exc_chain_of it w5).
    rewrite H5x. apply chain_after_ext. simpl. congruence.
  - rewrite Ht6, captured_app, H5t. simpl. rewrite !captured_app, Ht2.
    simpl. rewrite !captured_app, Ht. simpl. rewrite !app_nil_r.
    f_equal. apply submitted_ext. simpl. congruence.
Qed.

Lemma get_integration_alloc (w : world) (n : nat) (c : pyval) :
  n = length (w_hubs w) ->
  get_integration (set_hubs (fun hs => hs ++ [HubObj c []]) w) n
  = client_integration c.
Proof.
  intros ->. unfold get_integration. simpl.
  by rewrite list_lookup_middle.
Qed.

Lemma item_toggle_stable (it : item) (w w' : world) (ar : pyval) :
  restored w w' -> w_env w' = w_env w -> w_sdk w' = w_sdk w ->
  item_toggle it w = Some ar -> item_toggle it w' = Some ar.
Proof.
  intros Hr He Hs. unfold item_toggle, _resolve_hub_marker_value, Hub.
  assert (Hhub : forall h (w0 w0' : world),
            w_hubs w0 = w_hubs w -> w_hubs w0' = w_hubs w' ->
            get_integration w0 h ≫= always_report_of = Some ar ->
            get_integration w0' h ≫= always_report_of = Some ar).
  { intros h w0 w0' H0 H0' H.
    destruct (get_integration w0 h) as [i|] eqn:Hi; [| by simpl in H].
    assert (Hi' : get_integration w0' h = Some i); [| by rewrite Hi'].
    eapply (get_integration_prefix w0); [| done].
    destruct Hr as [_ Hp]. by rewrite H0, H0'. }
  destruct (sentry_client_marker it) as [[[|v args] kw]|]; simpl;
    [done | | by apply Hhub].
  destruct v as [| | | | | | | | | | |name ret| |]; simpl; rewrite ?He, ?Hs;
    try done; try (by apply Hhub);
    try (destruct ret; simpl; rewrite ?He, ?Hs; try done;
         try (by apply Hhub));
    repeat (case_match; simplify_eq/=); try done;
    by rewrite !get_integration_alloc by done.
Qed.

(** A marker without positional argument is not the absence of a marker:
    [marker_value.args[0]] raises. *)
Lemma marker_without_argument (kw : dict) (w : world) :
  _resolve_hub_marker_value (Some (Marker [] kw)) w = (Raise index_error, w).
Proof. reflexivity. Qed.

(** One failing test, run through its phases in the world the imports
    leave: the hooks run on [DEFAULT_HUB], nested, and [GLOBAL_HUB] is
    current again at the end; the failure is recorded and, [always_report]
    being unset, not submitted. *)
Example failing_test_run :
  w_current (run (sample_protocol sample_item (Fail sample_failure))
               (initial_world ∅)).2 = GLOBAL_HUB /\
  w_hubs (run (sample_protocol sample_item (Fail sample_failure))
            (initial_world ∅)).2 = w_hubs (initial_world ∅) /\
  w_trace (run (sample_protocol sample_item (Fail sample_failure))
             (initial_world ∅)).2
  = [Entered 1; Exited 1; Entered 1;
     Called 1 PushScope; Called 1 (AddEventProcessor "_process_event");
     Entered 1; Exited 1; Entered 1;
     Called 1 (StartTransaction "pytest.fixture.setup"
                 "pytest.fixture.setup tmp_path");
     Called 1 FinishTransaction; Exited 1;
     Entered 1; Exited 1; Entered 1;
     Called 1 (StartTransaction "pytest.runtest.call"
                 "pytest.runtest.call tests/test_a.py::test_x");
     Called 1 FinishTransaction; Exited 1;
     Entered 1; Exited 1; Entered 1;
     Called 1 (SetTag "pytest.result" "pending");
     Called 1 (SetTag "pytest.result" "failed"); Exited 1;
     Called 1 PopScope; Exited 1] /\
  exc_chain_of sample_item
    (run (sample_protocol sample_item (Fail sample_failure))
       (initial_world ∅)).2 = [sample_failure].
Proof. repeat split; reflexivity. Qed.

(** ** What is recorded only grows *)

Global Instance grows_refl : Reflexive grows.
Proof. intros w. by split_and!. Qed.

Global Instance grows_trans : Transitive grows.
Proof.
  intros w1 w2 w3 (S1 & E1 & T1 & I1 & C1) (S2 & E2 & T2 & I2 & C2).
  split; [congruence |]. split; [congruence |].
  split; [by etrans |]. split; [by etrans |].
  intros j. etrans; [apply C1 | apply C2].
Qed.

Lemma grows_record (t : trace_entry) (w : world) : grows w (record t w).
Proof. split_and!; try done. simpl. by apply prefix_app_r. Qed.

Lemma grows_emit (c : sdk_call) (w : world) : grows w (emit c w).
Proof. apply grows_record. Qed.

Lemma grows_same (w w' : world) :
  w_sdk w' = w_sdk w -> w_env w' = w_env w -> w_trace w' = w_trace w ->
  w_invoked w' = w_invoked w -> w_exc_chain w' = w_exc_chain w ->
  grows w w'.
Proof.
  intros H0 H1 H2 H3 H4. unfold grows, chain_at. rewrite H0, H1, H2, H3, H4.
  by split_and!.
Qed.

Lemma grows_hub_enter (h : nat) (w : world) : grows w (hub_enter h w).
Proof. split_and!; try done. simpl. by apply prefix_app_r. Qed.

Lemma grows_hub_exit (h : nat) (w w' : world) :
  hub_exit h w = Ok w' -> grows w w'.
Proof.
  unfold hub_exit. destruct (w_hubs w !! h) as [[c [|old rest]]|]; try done.
  intros [= <-]. split_and!; try done. simpl. by apply prefix_app_r.
Qed.

Lemma grows_capture_all (chain : list exc_info) (w : world) :
  grows w (capture_all chain w).
Proof.
  unfold capture_all. revert w.
  induction chain as [|e chain IH]; intros w; simpl; [done |].
  etrans; [apply (grows_emit (CaptureException e)) | apply IH].
Qed.

Lemma grows_append_chain (it : item) (e : exc_info) (w : world) :
  grows w (set_exc_chain (item_id it) (exc_chain_of it w ++ [e]) w).
Proof.
  split_and!; try done. intros j. unfold chain_at, exc_chain_of. simpl.
  destruct (decide (j = item_id it)) as [-> | Hne].
  - rewrite lookup_insert_eq. simpl. by apply prefix_app_r.
  - by rewrite lookup_insert_ne.
Qed.

Lemma grows_resolve (m : option marker) (w w' : world) (r : result nat) :
  _resolve_hub_marker_value m w = (r, w') -> grows w w'.
Proof.
  unfold _resolve_hub_marker_value, Hub. intros H.
  repeat (case_match; simplify_eq/=);
    split_and!; simpl; try done; by apply prefix_app_r.
Qed.

Lemma leave_grows {T} (h : nat) (r r' : gstep T) (w w' : world) :
  leave h r w = (r', w') -> grows w w'.
Proof.
  unfold leave. destruct (hub_exit h w) as [w2 | e] eqn:He.
  - intros [= <- <-]. by eapply grows_hub_exit.
  - by intros [= <- <-].
Qed.

Section only_adds.
Context {Args S : Type}.
Variable itemgetter : Args -> item.
Variable wrapped : Args -> generator S.
Variable init : S.
Variable args : Args.
Hypothesis wrapped_adds : only_adds (wrapped args).

Lemma with_hub_next_grows (hub : nat) (gen : S) (w w' : world)
    (r : gstep (wstate S)) :
  with_hub_next (wrapped args) hub gen w = (r, w') -> grows w w'.
Proof.
  unfold with_hub_next.
  destruct (wrapped args None gen (hub_enter hub w)) as [[g | | e] w2] eqn:Hw;
    apply wrapped_adds in Hw; intros H.
  - injection H as <- <-. etrans; [apply grows_hub_enter | done].
  - apply leave_grows in H. etrans; [apply grows_hub_enter |]. by etrans.
  - apply leave_grows in H. etrans; [apply grows_hub_enter |]. by etrans.
Qed.

Lemma with_hub_only_adds : only_adds (_with_hub itemgetter wrapped init args).
Proof.
  intros sent [| | hub gen] w r w'; simpl.
  - destruct (_resolve_hub_marker_value _ w) as [[hub | e] w1] eqn:Hres;
      apply grows_resolve in Hres; [| by intros [= <- <-]].
    destruct (get_integration w1 hub); [| by intros [= <- <-]].
    destruct (hub_exit hub (hub_enter hub w1)) as [w2 | e] eqn:He.
    + intros H. apply with_hub_next_grows in H. apply grows_hub_exit in He.
      etrans; [done |]. etrans; [apply grows_hub_enter |]. by etrans.
    + intros [= <- <-]. etrans; [done | apply grows_hub_enter].
  - by intros [= <- <-].
  - destruct (wrapped args sent gen w) as [[g | | e] w2] eqn:Hw;
      apply wrapped_adds in Hw; intros H.
    + destruct (hub_exit hub w2) as [w3 | e] eqn:He.
      * apply with_hub_next_grows in H. apply grows_hub_exit in He.
        etrans; [done |]. by etrans.
      * by injection H as <- <-.
    + apply leave_grows in H. by etrans.
    + apply leave_grows in H. by etrans.
Qed.
End only_adds.

Lemma multicall_grows {S} (hook : generator S) (init : S)
    (inner : world -> result pyval * world) (w w' : world)
    (o : result pyval) :
  only_adds hook ->
  (forall w1 o1 w2, inner w1 = (o1, w2) -> grows w1 w2) ->
  multicall hook init inner w = (o, w') -> grows w w'.
Proof.
  intros Hh Hi. unfold multicall.
  destruct (hook None init w) as [[s | | e] w1] eqn:H1; apply Hh in H1;
    [| by intros [= <- <-] | by intros [= <- <-]].
  destruct (inner w1) as [o1 w2] eqn:H2. apply Hi in H2.
  destruct (hook (Some o1) s w2) as [[s2 | | e] w3] eqn:H3; apply Hh in H3;
    intros [= <- <-]; by do 2 (etrans; [eassumption |]).
Qed.

Lemma protocol_adds it : only_adds (pytest_runtest_protocol it).
Proof.
  intros sent [] w r w' [= <- <-].
  - etrans; apply grows_emit.
  - apply grows_emit.
Qed.

Lemma call_adds it : only_adds (pytest_runtest_call it).
Proof. intros sent [] w r w' [= <- <-]; apply grows_emit. Qed.

Lemma fixture_adds fd rq : only_adds (pytest_fixture_setup fd rq).
Proof. intros sent [] w r w' [= <- <-]; apply grows_emit. Qed.

Local Arguments capture_all : simpl never.

Lemma makereport_adds it call : only_adds (pytest_runtest_makereport it call).
Proof.
  intros sent [] w r w'; unfold pytest_runtest_makereport; cbn beta iota;
    [intros [= <- <-]; apply grows_emit |].
  destruct sent as [[v | e] |]; [| by intros [= <- <-] | by intros [= <- <-]].
  destruct v; try (by intros [= <- <-]).
  set (w1 := emit (SetTag "pytest.result" outcome) w).
  assert (H1 : grows w w1) by apply grows_emit.
  destruct (String.eqb (when call) "call");
    [| intros [= <- <-]; exact H1].
  destruct (excinfo call) as [e |].
  - assert (H2 : grows w1 (set_exc_chain (item_id it)
                             (exc_chain_of it w1 ++ [e]) w1))
      by apply grows_append_chain.
    intros H. repeat (case_match; simplify_eq/=);
      repeat (etrans; [eassumption |]); try done; apply grows_capture_all.
  - intros H. repeat (case_match; simplify_eq/=);
      repeat (etrans; [eassumption |]); try done; apply grows_capture_all.
Qed.

Lemma registered_adds (h : hookcall) : only_adds (registered h).
Proof.
  destruct h; simpl; apply with_hub_only_adds;
    auto using protocol_adds, call_adds, fixture_adds, makereport_adds.
Qed.

Lemma run_grows (p : phase) (w w' : world) (o : result pyval) :
  run p w = (o, w') -> grows w w'.
Proof.
  revert w w' o. induction p as [v | e | c k IH | h inner IHi k IHk];
    intros w w' o; simpl.
  - by intros [= <- <-].
  - by intros [= <- <-].
  - intros H. etrans; [apply grows_emit | by eapply IH].
  - destruct (multicall (registered h) WStart (run inner) w)
      as [o1 w1] eqn:Hm.
    intros H. etrans; [| by eapply IHk].
    eapply multicall_grows; [apply registered_adds | | exact Hm].
    intros ? ? ?. apply IHi.
Qed.

Lemma firing_grows (it : item) (call : callinfo) (report : pyval)
    (w : world) :
  grows w (firing it call report w).2.
Proof.
  destruct (firing it call report w) as [o w'] eqn:H. unfold firing in H.
  eapply multicall_grows; [apply registered_adds | | exact H].
  intros ? ? ?. apply run_grows.
Qed.

Lemma client_integration_toggle (c i : pyval) :
  client_integration c = Some i -> exists a, i = VIntegration a.
Proof.
  assert (Hl : forall l : list pyval,
            last (filter (fun v => is_integration v = true) l) = Some i ->
            exists a, i = VIntegration a).
  { intros l H. apply last_Some_elem_of in H.
    apply list_elem_of_filter in H as [H _]. destruct i; try done.
    by eexists. }
  unfold client_integration.
  destruct c; try done;
    (destruct (dict_get "integrations" _) as [[]|]; try done; apply Hl).
Qed.

(** Without a resolved hub that carries the integration, a firing of the
    outcome hook leaves the world as the resolver left it. *)
Lemma firing_skipped (it : item) (call : callinfo) (report : pyval)
    (w w1 : world) (r : result nat) :
  _resolve_hub_marker_value (sentry_client_marker it) w = (r, w1) ->
  match r with Ok hub => get_integration w1 hub = None | Raise _ => True end ->
  (firing it call report w).2 = w1.
Proof.
  intros Hres Hint. unfold firing, multicall, registered, _with_hub. simpl.
  rewrite Hres. destruct r as [hub | e]; [by rewrite Hint | done].
Qed.

Lemma item_toggle_None (it : item) (w : world) :
  item_toggle it w = None ->
  exists r w1,
    _resolve_hub_marker_value (sentry_client_marker it) w = (r, w1) /\
    match r with Ok hub => get_integration w1 hub = None | Raise _ => True end.
Proof.
  unfold item_toggle.
  destruct (_resolve_hub_marker_value (sentry_client_marker it) w)
    as [[hub | e] w1] eqn:Hres; intros H;
    [exists (Ok hub), w1 | by exists (Raise e), w1].
  split; [done |].
  destruct (get_integration w1 hub) as [i|] eqn:Hi; [| done].
  unfold get_integration in Hi. destruct (w_hubs w1 !! hub); [| done].
  apply client_integration_toggle in Hi as [a ->]. done.
Qed.

(** ** Main statements *)

(** C1. After a phase has run, the current hub is the hub that was current
    before it began, and every hub object that existed then is as it was,
    its stack of replaced hubs included.  The phase is any nesting of hook
    calls, through [_with_hub], around code that returns or raises: the
    statement is about the world that [run] leaves, whichever outcome comes
    with it. *)
Theorem context_restored (p : phase) (w : world) :
  w_current (run p w).2 = w_current w /\
  w_hubs w `prefix_of` w_hubs (run p w).2.
Proof.
  destruct (run p w) as [o w'] eqn:H. by apply run_restored in H.
Qed.

(** C9. The transaction that [pytest_runtest_call] starts has the
    operation "pytest.runtest.call" and that operation, a space and a name
    [n] as its name.  When the node id ends with "]" and is [a], "[" and a
    rest without "[", [n] is [a]; when it ends with "]" and has no "[", or
    does not end with "]", [n] is the node id. *)
Theorem call_transaction_name (it : item) (w : world) :
  exists n,
    pytest_runtest_call it None GStart w
    = (GYield GSuspended,
       emit (StartTransaction "pytest.runtest.call"
               ("pytest.runtest.call " +:+ n)) w)
    /\ (forall a b, ends_with (nodeid it) "]" ->
          nodeid it = a +:+ String "[" b -> ~ occurs "[" b -> n = a)
    /\ (ends_with (nodeid it) "]" -> ~ occurs "[" (nodeid it) ->
        n = nodeid it)
    /\ (~ ends_with (nodeid it) "]" -> n = nodeid it).
Proof.
  exists (transaction_name (nodeid it)). split; [done |].
  unfold transaction_name.
  destruct (endswith_char (nodeid it) "]") eqn:E.
  - apply endswith_char_spec in E. split; [| split; [| done]].
    + intros a b _ Hab Hb. rewrite Hab. unfold rfind.
      rewrite rfind_from_last by (lia || done).
      destruct (Z.eqb_spec (0 + Z.of_nat (String.length a)) (-1)); [lia |].
      simpl. rewrite Z.add_0_l. apply slice_to_app.
    + intros _ Hno. apply (rfind_from_none _ _ 0) in Hno; [| lia].
      unfold rfind. by rewrite Hno.
  - split; [| split; [| done]].
    + intros a b H. apply endswith_char_spec in H. congruence.
    + intros H. apply endswith_char_spec in H. congruence.
Qed.

Lemma call_transaction_name_witness :
  exists n,
    pytest_runtest_call sample_item None GStart (initial_world ∅)
    = (GYield GSuspended,
       emit (StartTransaction "pytest.runtest.call"
               ("pytest.runtest.call " +:+ n)) (initial_world ∅))
    /\ n = "tests/test_a.py::test_x".
Proof.
  destruct (call_transaction_name sample_item (initial_world ∅))
    as (n & H1 & H2 & _).
  exists n. split; [exact H1 |].
  apply (H2 "tests/test_a.py::test_x" "1-2]").
  - by exists "tests/test_a.py::test_x[1-2".
  - reflexivity.
  - apply (rfind_from_none _ _ 0); [lia | reflexivity].
Defined.

(** C7. Without an argument, [always_report] is a boolean that is true
    exactly when the variable PYTEST_SENTRY_ALWAYS_REPORT, taken as the
    empty string when unset, is "1", "true" or "yes" once lowercased; an
    argument other than [None] is kept as given, whatever the
    environment. *)
Theorem always_report_resolution (env : environ) :
  (exists b,
     PytestIntegration env VNone = VIntegration (VBool b) /\
     let s := default "" (env !! "PYTEST_SENTRY_ALWAYS_REPORT") in
     (b = true <-> lower s = "1" \/ lower s = "true" \/ lower s = "yes")) /\
  (forall b, b <> VNone -> PytestIntegration env b = VIntegration b).
Proof.
  split.
  - eexists. split; [reflexivity |]. simpl.
    unfold environ_get_str, in_truthy_forms, truthy_forms.
    destruct (env !! "PYTEST_SENTRY_ALWAYS_REPORT") as [s|]; simpl.
    + rewrite !orb_true_iff, !String.eqb_eq. intuition discriminate.
    + split; [done | intros [H | [H | H]]; discriminate H].
  - intros b Hb. by destruct b.
Qed.

Lemma always_report_resolution_witness :
  PytestIntegration {[ "PYTEST_SENTRY_ALWAYS_REPORT" := "Yes" ]} VNone
  = VIntegration (VBool true) /\
  PytestIntegration {[ "PYTEST_SENTRY_ALWAYS_REPORT" := "Yes" ]} (VBool false)
  = VIntegration (VBool false).
Proof.
  destruct (always_report_resolution
              {[ "PYTEST_SENTRY_ALWAYS_REPORT" := "Yes" ]}) as [_ H].
  split; [reflexivity |]. apply H. discriminate.
Defined.



(** C10, as the code has it.  For an event of the SDK's shape (the
    exception container, when there is one, a dict whose values are a list
    of dicts; every stack trace a dict with a list of frames; every frame a
    dict whose module is a string) the event processor returns.  Whenever
    it returns, what it returns is the event, never [None], and the event
    differs from the one passed in at most in the [in_app] of stack frames:
    every other key of the event, of the exception container, of each
    exception entry, of each stack trace and of each frame holds what it
    held. *)
Theorem event_returned (ev : dict) (hint : pyval) :
  (wf_event ev = true ->
   exists ev', _process_event ev hint = Ok (VDict ev')) /\
  (forall r, _process_event ev hint = Ok r ->
     r <> VNone /\ exists ev', r = VDict ev' /\ event_rel ev ev').
Proof.
  split; [apply process_event_total |].
  intros r H. apply process_event_marks in H as (ev' & -> & H & _).
  split; [done | by exists ev'].
Qed.

Lemma event_returned_witness :
  (exists ev', _process_event (sample_event [VInt 0]) VNone
               = Ok (VDict ev')) /\
  (exists ev', VDict (sample_event [VBool false; VBool true]) = VDict ev' /\
     event_rel (sample_event [VInt 0]) ev').
Proof.
  destruct (event_returned (sample_event [VInt 0]) VNone) as (H1 & H2).
  split; [apply H1; reflexivity | apply H2; reflexivity].
Defined.

(** C10, as stated, fails: on an event with a stack frame whose module is
    [None], which is not of the SDK's usual shape but is an input event,
    the event processor raises and returns nothing. *)
Lemma headless_event_counterexample :
  wf_event headless_event = false /\
  _process_event headless_event VNone
  = Raise (attribute_error VNone "startswith").
Proof. split; reflexivity. Qed.

(** C5, as the code has it.  What [_with_hub] tests is the integration of
    the hub that the marker of the item resolves to.  When that hub has
    none, the hook call is the wrapped phase run as it stands, from the
    world the resolver leaves: nothing is added to the trace, no hub is
    entered or left, and the outcome is the outcome of the phase.  The
    resolver itself only creates hub objects and invokes the marker's
    callable. *)
Theorem hook_without_toggle (h : hookcall) (inner : phase) (w w1 : world)
    (hub : nat) :
  _resolve_hub_marker_value (sentry_client_marker (hook_item h)) w
  = (Ok hub, w1) ->
  get_integration w1 hub = None ->
  multicall (registered h) WStart (run inner) w = run inner w1 /\
  w_trace w1 = w_trace w /\ w_current w1 = w_current w /\
  w_hubs w `prefix_of` w_hubs w1 /\ w_exc_chain w1 = w_exc_chain w.
Proof.
  intros Hres Hint. split.
  - unfold multicall.
    destruct h as [it | it | fd rq | it call]; simpl in *;
      rewrite Hres, Hint; by destruct (run inner w1).
  - apply resolve_restored in Hres as ([? ?] & ? & ? & _). by repeat split.
Qed.

Lemma hook_without_toggle_witness :
  multicall (registered (RuntestCall disabled_item)) WStart
    (run (Fail sample_failure)) (initial_world ∅)
  = (Raise sample_failure,
     set_hubs (fun hs => hs ++ [HubObj VNone []]) (initial_world ∅)).
Proof.
  destruct (hook_without_toggle (RuntestCall disabled_item)
              (Fail sample_failure) (initial_world ∅)
              (set_hubs (fun hs => hs ++ [HubObj VNone []])
                 (initial_world ∅)) 2) as [H _];
    [reflexivity | reflexivity | exact H].
Defined.

(** C5, as stated, fails: with the plugin loaded and [sentry_sdk] not
    initialised, the current hub has no integration, and the hook call
    for an item without marker still enters [DEFAULT_HUB] and starts a
    transaction. *)
Lemma toggle_of_current_hub_counterexample :
  get_integration (initial_world ∅) (w_current (initial_world ∅)) = None /\
  w_trace (multicall (registered (RuntestCall sample_item)) WStart
             (run (Return VNone)) (initial_world ∅)).2
  = [Entered DEFAULT_HUB; Exited DEFAULT_HUB; Entered DEFAULT_HUB;
     Called DEFAULT_HUB
       (StartTransaction "pytest.runtest.call"
          "pytest.runtest.call tests/test_a.py::test_x");
     Called DEFAULT_HUB FinishTransaction; Exited DEFAULT_HUB].
Proof. split; reflexivity. Qed.

(** C3, as the code has it.  For an item whose marker resolves to a hub
    that carries the integration, a firing of the outcome hook for a "call"
    phase that raised appends exactly that one failure to the chain of the
    item; the firing submits nothing when [always_report] is not set, and
    submits the chain, the new failure last, when it is set.  For an item
    whose marker resolves to a hub without integration, or cannot be
    resolved, the firing appends nothing and submits nothing. *)
Theorem failing_call_recorded (it : item) (e : exc_info) (outcome : string)
    (w : world) :
  (forall ar, item_toggle it w = Some ar ->
     exc_chain_of it
       (firing it (CallInfo "call" (Some e)) (VReport outcome) w).2
     = exc_chain_of it w ++ [e] /\
     captured
       (w_trace (firing it (CallInfo "call" (Some e)) (VReport outcome) w).2)
     = captured (w_trace w)
         ++ (if truthy ar then exc_chain_of it w ++ [e] else [])) /\
  (forall r w1,
     _resolve_hub_marker_value (sentry_client_marker it) w = (r, w1) ->
     match r with
     | Ok hub => get_integration w1 hub = None
     | Raise _ => True
     end ->
     exc_chain_of it
       (firing it (CallInfo "call" (Some e)) (VReport outcome) w).2
     = exc_chain_of it w /\
     captured
       (w_trace (firing it (CallInfo "call" (Some e)) (VReport outcome) w).2)
     = captured (w_trace w)).
Proof.
  split.
  - intros ar Har.
    destruct (firing_spec it (CallInfo "call" (Some e)) outcome w ar Har)
      as (w' & -> & _ & _ & _ & Hc & Ht).
    by split.
  - intros r w1 Hres Hint.
    rewrite (firing_skipped _ _ _ _ _ _ Hres Hint).
    apply resolve_restored in Hres as (_ & Ht & Hc & _).
    unfold exc_chain_of. by rewrite Ht, Hc.
Qed.

Lemma failing_call_recorded_witness :
  (exc_chain_of sample_item
     (firing sample_item (CallInfo "call" (Some sample_failure))
        (VReport "failed") (initial_world ∅)).2
   = [sample_failure] /\
   captured
     (w_trace (firing sample_item (CallInfo "call" (Some sample_failure))
                 (VReport "failed") (initial_world ∅)).2)
   = []) /\
  (exc_chain_of disabled_item
     (firing disabled_item (CallInfo "call" (Some sample_failure))
        (VReport "failed") (initial_world ∅)).2
   = [] /\
   captured
     (w_trace (firing disabled_item (CallInfo "call" (Some sample_failure))
                 (VReport "failed") (initial_world ∅)).2)
   = []).
Proof.
  split.
  - apply (proj1 (failing_call_recorded sample_item sample_failure "failed"
                    (initial_world ∅)) (VBool false)).
    reflexivity.
  - apply (proj2 (failing_call_recorded disabled_item sample_failure
                    "failed" (initial_world ∅)) (Ok 2%nat)
             (set_hubs (fun hs => hs ++ [HubObj VNone []])
                (initial_world ∅))); reflexivity.
Defined.

(** C3, as stated, fails: under the default policy the one firing for a
    failed "call" phase records the failure and submits nothing; and for an
    item marked with [None] it does not even record the failure. *)
Lemma failing_call_counterexample :
  (item_toggle sample_item (initial_world ∅) = Some (VBool false) /\
   exc_chain_of sample_item
     (firing sample_item (CallInfo "call" (Some sample_failure))
        (VReport "failed") (initial_world ∅)).2
   = [sample_failure] /\
   captured
     (w_trace (firing sample_item (CallInfo "call" (Some sample_failure))
                 (VReport "failed") (initial_world ∅)).2)
   = []) /\
  exc_chain_of disabled_item
    (firing disabled_item (CallInfo "call" (Some sample_failure))
       (VReport "failed") (initial_world ∅)).2
  = [].
Proof. repeat split; reflexivity. Qed.

(** C4, as the code has it.  Under the default policy ([always_report]
    not set), when the outcome hook for the "call" phase of an item fires
    with a failure and then fires again without one, the failure is added
    to the chain and stays in it, the first firing submits nothing and the
    second submits the chain, the failure last: the failure is submitted
    once over both firings. *)
Theorem retried_call_submitted_once (it : item) (e : exc_info)
    (failed passed : string) (w : world) (ar : pyval) :
  item_toggle it w = Some ar ->
  truthy ar = false ->
  exc_chain_of it
    (firing it (CallInfo "call" (Some e)) (VReport failed) w).2
  = exc_chain_of it w ++ [e] /\
  captured
    (w_trace (firing it (CallInfo "call" (Some e)) (VReport failed) w).2)
  = captured (w_trace w) /\
  exc_chain_of it
    (firing it (CallInfo "call" None) (VReport passed)
       (firing it (CallInfo "call" (Some e)) (VReport failed) w).2).2
  = exc_chain_of it w ++ [e] /\
  captured
    (w_trace
       (firing it (CallInfo "call" None) (VReport passed)
          (firing it (CallInfo "call" (Some e)) (VReport failed) w).2).2)
  = captured (w_trace w) ++ exc_chain_of it w ++ [e].
Proof.
  intros Har Hfalse.
  pose proof (firing_grows it (CallInfo "call" (Some e)) (VReport failed) w)
    as (Hs1 & _).
  destruct (firing_spec it (CallInfo "call" (Some e)) failed w ar Har)
    as (w1 & Hf1 & Hr1 & He1 & _ & Hc1 & Ht1).
  rewrite Hf1 in *. cbn [snd] in *.
  unfold chain_after, submitted in Hc1, Ht1. simpl in Hc1, Ht1.
  rewrite Hfalse, app_nil_r in Ht1.
  assert (Har1 : item_toggle it w1 = Some ar)
    by by apply (item_toggle_stable it w w1).
  destruct (firing_spec it (CallInfo "call" None) passed w1 ar Har1)
    as (w2 & -> & _ & _ & _ & Hc2 & Ht2).
  unfold chain_after, submitted in Hc2, Ht2. simpl in Hc2, Ht2.
  rewrite app_nil_r in Hc2. rewrite Hc1 in Hc2, Ht2. rewrite Ht1 in Ht2.
  by repeat split.
Qed.

Lemma retried_call_submitted_once_witness :
  captured
    (w_trace
       (firing sample_item (CallInfo "call" None) (VReport "passed")
          (firing sample_item (CallInfo "call" (Some sample_failure))
             (VReport "failed") (initial_world ∅)).2).2)
  = [sample_failure].
Proof.
  destruct (retried_call_submitted_once sample_item sample_failure
              "failed" "passed" (initial_world ∅) (VBool false))
    as (_ & _ & _ & H); [reflexivity | reflexivity |].
  exact H.
Defined.

(** C4, as stated, fails: with [always_report] set, each of the two
    firings submits the failure. *)
Lemma retried_call_counterexample :
  item_toggle sample_item (initial_world always_report_environ)
  = Some (VBool true) /\
  captured
    (w_trace
       (firing sample_item (CallInfo "call" None) (VReport "passed")
          (firing sample_item (CallInfo "call" (Some sample_failure))
             (VReport "failed")
             (initial_world always_report_environ)).2).2)
  = [sample_failure; sample_failure].
Proof. split; vm_compute; reflexivity. Qed.

(** C8, as the code has it.  For an item whose marker resolves to a hub
    that carries the integration, a firing of the outcome hook whose call
    information carries a failure appends that one failure to the chain of
    the item when the phase is "call", and leaves the chain as it is for
    every other phase.  For an item whose marker resolves to a hub without
    integration, or cannot be resolved, the chain is left as it is in every
    phase.  The chains of other items are left as they are. *)
Theorem failure_recorded_for_call_only (it : item) (call : callinfo)
    (e : exc_info) (outcome : string) (w : world) :
  excinfo call = Some e ->
  (forall ar, item_toggle it w = Some ar ->
     (when call = "call" ->
      exc_chain_of it (firing it call (VReport outcome) w).2
      = exc_chain_of it w ++ [e]) /\
     (when call <> "call" ->
      exc_chain_of it (firing it call (VReport outcome) w).2
      = exc_chain_of it w)) /\
  (forall r w1,
     _resolve_hub_marker_value (sentry_client_marker it) w = (r, w1) ->
     match r with
     | Ok hub => get_integration w1 hub = None
     | Raise _ => True
     end ->
     exc_chain_of it (firing it call (VReport outcome) w).2
     = exc_chain_of it w) /\
  (forall j, j <> item_id it ->
     w_exc_chain (firing it call (VReport outcome) w).2 !! j
     = w_exc_chain w !! j).
Proof.
  intros He.
  assert (Hskip : forall r w1,
            _resolve_hub_marker_value (sentry_client_marker it) w = (r, w1) ->
            match r with
            | Ok hub => get_integration w1 hub = None
            | Raise _ => True
            end ->
            w_exc_chain (firing it call (VReport outcome) w).2
            = w_exc_chain w).
  { intros r w1 Hres Hint. rewrite (firing_skipped _ _ _ _ _ _ Hres Hint).
    by apply resolve_restored in Hres as (_ & _ & Hc & _). }
  split_and!.
  - intros ar Har.
    destruct (firing_spec it call outcome w ar Har)
      as (w' & -> & _ & _ & _ & Hc & _).
    unfold chain_after in Hc. rewrite He in Hc. simpl. split.
    + intros Hw. rewrite Hw in Hc. exact Hc.
    + intros Hw. apply String.eqb_neq in Hw. rewrite Hw in Hc. exact Hc.
  - intros r w1 Hres Hint. unfold exc_chain_of.
    by rewrite (Hskip r w1 Hres Hint).
  - destruct (item_toggle it w) as [ar|] eqn:Har.
    + destruct (firing_spec it call outcome w ar Har)
        as (w' & -> & _ & _ & Ho & _). exact Ho.
    + apply item_toggle_None in Har as (r & w1 & Hres & Hint).
      intros j _. by rewrite (Hskip r w1 Hres Hint).
Qed.

Lemma failure_recorded_for_call_only_witness :
  exc_chain_of sample_item
    (firing sample_item (CallInfo "call" (Some sample_failure))
       (VReport "failed") (initial_world ∅)).2
  = [sample_failure] /\
  exc_chain_of sample_item
    (firing sample_item (CallInfo "teardown" (Some sample_failure))
       (VReport "failed") (initial_world ∅)).2
  = [] /\
  exc_chain_of disabled_item
    (firing disabled_item (CallInfo "call" (Some sample_failure))
       (VReport "failed") (initial_world ∅)).2
  = [].
Proof.
  split_and!.
  - apply (proj1 (failure_recorded_for_call_only sample_item
                    (CallInfo "call" (Some sample_failure)) sample_failure
                    "failed" (initial_world ∅) eq_refl) (VBool false));
      reflexivity.
  - apply (proj1 (failure_recorded_for_call_only sample_item
                    (CallInfo "teardown" (Some sample_failure))
                    sample_failure "failed" (initial_world ∅) eq_refl)
             (VBool false)); [reflexivity | discriminate].
  - apply (proj1 (proj2 (failure_recorded_for_call_only disabled_item
                           (CallInfo "call" (Some sample_failure))
                           sample_failure "failed" (initial_world ∅)
                           eq_refl))
             (Ok 2%nat)
             (set_hubs (fun hs => hs ++ [HubObj VNone []])
                (initial_world ∅))); reflexivity.
Defined.

(** C8, as stated, fails: a failure in the "setup" phase is not added to
    the chain; and for an item marked with [None] a failure in the "call"
    phase is not added either. *)
Lemma setup_failure_counterexample :
  (item_toggle sample_item (initial_world ∅) = Some (VBool false) /\
   exc_chain_of sample_item
     (firing sample_item (CallInfo "setup" (Some sample_failure))
        (VReport "failed") (initial_world ∅)).2
   = []) /\
  exc_chain_of disabled_item
    (firing disabled_item (CallInfo "call" (Some sample_failure))
       (VReport "failed") (initial_world ∅)).2
  = [].
Proof. repeat split; reflexivity. Qed.




(** ** Further properties *)

Lemma hub_enter_exit (h : nat) (o : hub_obj) (w : world) :
  w_hubs w !! h = Some o ->
  hub_exit h (hub_enter h w)
  = Ok (record (Exited h) (record (Entered h) w)).
Proof.
  destruct w as [sdk env hubs cur ch inv tr]. simpl. intros Ho.
  unfold hub_exit, hub_enter, record, set_current, set_hubs. simpl.
  rewrite list_lookup_alter_eq, Ho. destruct o as [c old]. simpl.
  rewrite (alter_lookup_insert _ _ _ _ Ho), list_insert_insert_eq.
  rewrite list_insert_id by done. by rewrite <- app_assoc.
Qed.

Lemma phase_world_facts (h : hookcall) (hub : nat) (w1 : world) :
  w_current (phase_world h hub w1) = hub /\
  w_hubs (phase_world h hub w1) = w_hubs (hub_enter hub w1) /\
  w_exc_chain (phase_world h hub w1) = w_exc_chain w1 /\
  w_env (phase_world h hub w1) = w_env w1 /\
  w_trace (phase_world h hub w1)
  = w_trace w1 ++ [Entered hub; Exited hub; Entered hub]
      ++ map (Called hub) (opening h).
Proof.
  unfold phase_world.
  destruct h; simpl; rewrite <- ?app_assoc; by split_and!.
Qed.

Lemma enabled_hook_run (h : hookcall) (p : phase) (w w1 : world)
    (hub : nat) (i : pyval) :
  is_makereport h = false ->
  _resolve_hub_marker_value (sentry_client_marker (hook_item h)) w
  = (Ok hub, w1) ->
  get_integration w1 hub = Some i ->
  w_current (phase_world h hub w1) = hub /\
  w_trace (phase_world h hub w1)
  = w_trace w ++ [Entered hub; Exited hub; Entered hub]
      ++ map (Called hub) (opening h) /\
  (multicall (registered h) WStart (run p) w).1
  = (run p (phase_world h hub w1)).1 /\
  w_trace (multicall (registered h) WStart (run p) w).2
  = w_trace (run p (phase_world h hub w1)).2
      ++ map (Called hub) (closing h) ++ [Exited hub] /\
  w_exc_chain (multicall (registered h) WStart (run p) w).2
  = w_exc_chain (run p (phase_world h hub w1)).2.
Proof.
  intros Hm Hres Hint.
  destruct (phase_world_facts h hub w1) as (Fc & Fh & Fx & Fe & Ft).
  destruct (resolve_restored _ _ _ _ Hres) as (_ & Ht & _).
  split; [done |]. split; [by rewrite Ft, Ht |].
  destruct (get_integration_lookup _ _ _ Hint) as [ob Hob].
  assert (Hob' : w_hubs (record (Exited hub) (record (Entered hub) w1)) !! hub
                 = Some ob) by done.
  destruct (run p (phase_world h hub w1)) as [o w3] eqn:Hrun.
  pose proof (run_restored _ _ _ _ Hrun) as Hr3.
  assert (Hcl : forall c,
    exists w5, hub_exit hub (emit c w3) = Ok w5 /\
               w_trace w5 = w_trace w3 ++ [Called hub c] ++ [Exited hub] /\
               w_exc_chain w5 = w_exc_chain w3).
  { intros c.
    destruct (hub_exit_restores hub ob
                (record (Exited hub) (record (Entered hub) w1))
                (emit c w3) Hob') as (w5 & -> & _ & Hc5 & _ & _ & Ht5).
    { destruct Hr3 as [Hc3 Hp3]. split.
      - simpl. by rewrite Hc3, Fc.
      - rewrite Fh in Hp3. exact Hp3. }
    exists w5. split; [done |]. rewrite Ht5, Hc5. simpl.
    destruct Hr3 as [-> _]. rewrite Fc. by rewrite <- app_assoc. }
  unfold multicall.
  destruct h as [it | it | fd rq | it call]; try discriminate;
    simpl in *; rewrite Hres, Hint;
    rewrite (hub_enter_exit _ _ _ Hob); unfold with_hub_next; simpl;
    unfold phase_world in Hrun; simpl in Hrun; rewrite Hrun; unfold leave.
  - destruct (Hcl PopScope) as (w5 & -> & Ht5 & Hc5). by simpl.
  - destruct (Hcl FinishTransaction) as (w5 & -> & Ht5 & Hc5). by simpl.
  - destruct (Hcl FinishTransaction) as (w5 & -> & Ht5 & Hc5). by simpl.
Qed.

Local Arguments capture_all : simpl never.
Local Arguments pytest_runtest_makereport : simpl never.
Local Arguments hub_enter : simpl never.
Local Arguments hub_exit : simpl never.

Lemma makereport_post_trace (it : item) (call : callinfo) (outcome : string)
    (w : world) (ar : pyval) :
  get_integration w (w_current w) ≫= always_report_of = Some ar ->
  exists w' subs,
    pytest_runtest_makereport it call (Some (Ok (VReport outcome)))
      GSuspended w = (GReturn, w') /\
    w_current w' = w_current w /\ w_hubs w' = w_hubs w /\
    (subs = [] \/ subs = exc_chain_of it w') /\
    w_trace w'
    = w_trace w ++ [Called (w_current w) (SetTag "pytest.result" outcome)]
        ++ submissions (w_current w) subs.
Proof.
  intros Hint. unfold pytest_runtest_makereport. cbn beta iota.
  set (w1 := emit (SetTag "pytest.result" outcome) w).
  assert (Hint1 : forall c, get_integration (set_exc_chain (item_id it) c w1)
                              (w_current w) ≫= always_report_of = Some ar)
    by done.
  destruct (String.eqb (when call) "call").
  - destruct (excinfo call) as [e|] eqn:He.
    + cbn beta iota zeta. rewrite andb_false_r.
      change (w_current (set_exc_chain (item_id it)
                           (exc_chain_of it w1 ++ [e]) w1))
        with (w_current w).
      rewrite Hint1. destruct (truthy ar).
      * eexists _, (exc_chain_of it w ++ [e]). split; [done |].
        match goal with |- context [capture_all ?c ?w0] =>
          destruct (capture_all_frame c w0) as (-> & -> & Hc & _ & ->) end.
        split_and!; try done.
        -- right. unfold exc_chain_of at 2. rewrite Hc. simpl.
           by rewrite lookup_insert_eq.
        -- simpl. by rewrite <- app_assoc.
      * eexists _, []. split; [done |]. split_and!; try done; try (by left);
          try (simpl; by rewrite app_nil_r).
    + cbn beta iota zeta. rewrite andb_true_r.
      change (exc_chain_of it w1) with (exc_chain_of it w).
      destruct (exc_chain_of it w) as [|x l] eqn:Hc.
      * change (get_integration w1 (w_current w1))
          with (get_integration w (w_current w)).
        rewrite Hint.
        destruct (truthy ar); eexists _, []; (split; [done |]);
          try match goal with |- context [capture_all ?c ?w0] =>
            destruct (capture_all_frame c w0) as (-> & -> & _ & _ & ->) end;
          split_and!; try done; try (by left);
          simpl; by rewrite ?app_nil_r.
      * eexists _, (x :: l). split; [done |].
        match goal with |- context [capture_all ?c ?w0] =>
          destruct (capture_all_frame c w0) as (-> & -> & Hc' & _ & ->) end.
        split_and!; try done.
        -- right. unfold exc_chain_of. rewrite Hc'. symmetry. exact Hc.
        -- simpl. by rewrite <- app_assoc.
  - eexists _, []. split; [done |]. split_and!; try done; try (by left);
      try (simpl; by rewrite app_nil_r).
Qed.

Lemma makereport_enabled (it : item) (call : callinfo)
    (inner : world -> result pyval * world) (w w1 : world) (hub : nat)
    (i : pyval) :
  _resolve_hub_marker_value (sentry_client_marker it) w = (Ok hub, w1) ->
  get_integration w1 hub = Some i ->
  multicall (registered (RuntestMakereport it call)) WStart inner w
  = let '(o, w3) := inner (phase_world (RuntestMakereport it call) hub w1) in
    match pytest_runtest_makereport it call (Some o) GSuspended w3 with
    | (GYield g, w4) =>
        match hub_exit hub w4 with
        | Ok w5 =>
            match with_hub_next (pytest_runtest_makereport it call) hub g w5
            with
            | (GReturn, w6) => (o, w6)
            | (GRaise e, w6) => (Raise e, w6)
            | (GYield _, w6) => (Raise (wrap_fail "has second yield"), w6)
            end
        | Raise e => (Raise e, w4)
        end
    | (GReturn, w4) =>
        match hub_exit hub w4 with
        | Ok w5 => (o, w5)
        | Raise e => (Raise e, w4)
        end
    | (GRaise e, w4) =>
        match hub_exit hub w4 with
        | Ok w5 => (Raise e, w5)
        | Raise e' => (Raise e', w4)
        end
    end.
Proof.
  intros Hres Hint.
  destruct (get_integration_lookup _ _ _ Hint) as [ob Hob].
  unfold multicall, registered, _with_hub. cbn [fst snd].
  rewrite Hres, Hint, (hub_enter_exit _ _ _ Hob). unfold with_hub_next at 1.
  change (pytest_runtest_makereport it call None GStart ?x)
    with (GYield GSuspended, emit (SetTag "pytest.result" "pending") x).
  cbn beta iota.
  change (emit (SetTag "pytest.result" "pending")
            (hub_enter hub (record (Exited hub) (record (Entered hub) w1))))
    with (phase_world (RuntestMakereport it call) hub w1).
  destruct (inner _) as [o w3].
  destruct (pytest_runtest_makereport it call (Some o) GSuspended w3)
    as [[g | | e] w4]; unfold leave;
    destruct (hub_exit hub w4) as [w5 | e']; done.
Qed.

(** X11. A firing of the outcome hook for an item whose hub carries the
    integration adds to the trace, in this order: the hub entered, left and
    entered again, the tag "pending", the tag of the outcome, the
    submissions, and the hub left.  All of it is on the hub of the item,
    and the submissions are either none or the whole chain of the item as
    the firing leaves it. *)
Theorem firing_submits_on_item_hub (it : item) (call : callinfo)
    (outcome : string) (w w1 : world) (hub : nat) (ar : pyval) :
  _resolve_hub_marker_value (sentry_client_marker it) w = (Ok hub, w1) ->
  get_integration w1 hub ≫= always_report_of = Some ar ->
  exists subs,
    (subs = [] \/
     subs = exc_chain_of it (firing it call (VReport outcome) w).2) /\
    w_trace (firing it call (VReport outcome) w).2
    = w_trace w
        ++ [Entered hub; Exited hub; Entered hub;
            Called hub (SetTag "pytest.result" "pending");
            Called hub (SetTag "pytest.result" outcome)]
        ++ submissions hub subs ++ [Exited hub].
Proof.
  intros Hres Har.
  destruct (get_integration w1 hub) as [i|] eqn:Hint; [| done].
  unfold firing. rewrite (makereport_enabled _ _ _ _ _ _ _ Hres Hint).
  destruct (phase_world_facts (RuntestMakereport it call) hub w1)
    as (Fc & Fh & Fx & Fe & Ft).
  destruct (resolve_restored _ _ _ _ Hres) as (_ & Ht & _).
  destruct (get_integration_lookup _ _ _ Hint) as [ob Hob].
  cbn [run].
  destruct (makereport_post_trace it call outcome
              (phase_world (RuntestMakereport it call) hub w1) ar)
    as (w4 & subs & -> & H4c & H4h & Hsubs & H4t).
  { rewrite Fc. unfold get_integration. rewrite Fh.
    unfold get_integration in Hint. unfold hub_enter. simpl.
    rewrite list_lookup_alter_eq.
    destruct (w_hubs w1 !! hub) as [o|]; [| done]. simpl.
    by rewrite Hint. }
  destruct (hub_exit_restores hub ob
              (record (Exited hub) (record (Entered hub) w1)) w4 Hob)
    as (w5 & -> & _ & Hc5 & _ & _ & Ht5).
  { split; [by rewrite H4c, Fc | by rewrite H4h, Fh]. }
  exists subs. split.
  - destruct Hsubs as [-> | ->]; [by left | right].
    unfold exc_chain_of. simpl. by rewrite Hc5.
  - simpl. rewrite Ht5, H4t, Ft, Ht, Fc. simpl.
    by rewrite <- !app_assoc.
Qed.

(** X12. When the report hooks raise, or return something that is not a
    report, the outcome hook raises in turn (the same exception, or the
    missing attribute): the outcome is not tagged, nothing is submitted and
    the chain of the item is left alone, also when the call information
    carries a failure of the "call" phase; the hub is still left. *)
Theorem failed_report_records_nothing (it : item) (call : callinfo)
    (o : result pyval) (e : exc_info) (w w1 : world) (hub : nat)
    (i : pyval) :
  _resolve_hub_marker_value (sentry_client_marker it) w = (Ok hub, w1) ->
  get_integration w1 hub = Some i ->
  report_error o = Some e ->
  exists w',
    multicall (registered (RuntestMakereport it call)) WStart
      (run (outcome_phase o)) w = (Raise e, w') /\
    w_exc_chain w' = w_exc_chain w /\
    w_current w' = w_current w /\
    w_trace w'
    = w_trace w
        ++ [Entered hub; Exited hub; Entered hub;
            Called hub (SetTag "pytest.result" "pending"); Exited hub].
Proof.
  intros Hres Hint Ho.
  rewrite (makereport_enabled _ _ _ _ _ _ _ Hres Hint).
  destruct (phase_world_facts (RuntestMakereport it call) hub w1)
    as (Fc & Fh & Fx & Fe & Ft).
  destruct (resolve_restored _ _ _ _ Hres) as ([Hcur _] & Ht & Hx & _).
  destruct (get_integration_lookup _ _ _ Hint) as [ob Hob].
  destruct (hub_exit_restores hub ob
              (record (Exited hub) (record (Entered hub) w1))
              (phase_world (RuntestMakereport it call) hub w1) Hob)
    as (w5 & He & [Hc5' _] & Hc5 & _ & _ & Ht5).
  { split; [by rewrite Fc | by rewrite Fh]. }
  assert (Hstep :
    pytest_runtest_makereport it call (Some o) GSuspended
      (phase_world (RuntestMakereport it call) hub w1)
    = (GRaise e, phase_world (RuntestMakereport it call) hub w1)).
  { unfold pytest_runtest_makereport.
    destruct o as [[]|]; simpl in Ho; by simplify_eq. }
  exists w5.
  replace (run (outcome_phase o)
             (phase_world (RuntestMakereport it call) hub w1))
    with (o, phase_world (RuntestMakereport it call) hub w1)
    by by destruct o.
  rewrite Hstep, He. split; [done |].
  split; [by rewrite Hc5, Fx |]. split; [by rewrite Hc5', <- Hcur |].
  rewrite Ht5, Ft, Ht. simpl. by rewrite <- !app_assoc.
Qed.

Lemma resolve_frame (m : option marker) (w : world) :
  w_trace (_resolve_hub_marker_value m w).2 = w_trace w /\
  w_current (_resolve_hub_marker_value m w).2 = w_current w /\
  w_exc_chain (_resolve_hub_marker_value m w).2 = w_exc_chain w /\
  w_env (_resolve_hub_marker_value m w).2 = w_env w /\
  (w_invoked (_resolve_hub_marker_value m w).2 = w_invoked w \/
   exists name,
     w_invoked (_resolve_hub_marker_value m w).2 = w_invoked w ++ [name]) /\
  (w_hubs (_resolve_hub_marker_value m w).2 = w_hubs w \/
   exists client,
     (_resolve_hub_marker_value m w).1 = Ok (length (w_hubs w)) /\
     w_hubs (_resolve_hub_marker_value m w).2
     = w_hubs w ++ [HubObj client []]).
Proof.
  unfold _resolve_hub_marker_value, Hub.
  repeat (case_match; simplify_eq/=); split_and!; try done;
    try (by left); try (right; by eexists).
Qed.

(** X2. When the marker of the item cannot be resolved (no positional
    argument, a value of another type, a client that cannot be built),
    the hook call raises that error: the wrapped phase is not run, no hub
    is entered or created and nothing is recorded. *)
Theorem resolution_failure_aborts (h : hookcall)
    (inner : world -> result pyval * world) (w w1 : world) (e : exc_info) :
  _resolve_hub_marker_value (sentry_client_marker (hook_item h)) w
  = (Raise e, w1) ->
  multicall (registered h) WStart inner w = (Raise e, w1) /\
  w_trace w1 = w_trace w /\ w_current w1 = w_current w /\
  w_hubs w1 = w_hubs w /\ w_exc_chain w1 = w_exc_chain w.
Proof.
  intros Hres. split.
  - unfold multicall. destruct h; simpl in *; by rewrite Hres.
  - destruct (resolve_frame (sentry_client_marker (hook_item h)) w)
      as (H1 & H2 & H3 & _ & _ & H4).
    rewrite Hres in *. simpl in *.
    split_and!; try done. by destruct H4 as [? | (c & ? & _)].
Qed.

(** X13. For a marker whose value makes the resolver build a hub, the
    fixture [sentry_test_hub] returns a hub that did not exist before: it
    is not the current hub, so not the hub the hooks of the item entered,
    and asking again gives yet another hub. *)
Theorem fixture_hub_is_new (it : item) (v : pyval) (rest : list pyval)
    (kw : dict) (w w' w'' : world) (h h' : nat) :
  sentry_client_marker it = Some (Marker (v :: rest) kw) ->
  makes_hub v = true ->
  sentry_test_hub it w = (Ok h, w') ->
  sentry_test_hub it w' = (Ok h', w'') ->
  w_hubs w !! h = None /\ h' <> h /\
  (is_Some (w_hubs w !! w_current w) -> h <> w_current w).
Proof.
  intros Hm Hv H1 H2. unfold sentry_test_hub in *. rewrite Hm in *.
  assert (Hnew : forall w0 w0' h0,
            _resolve_hub_marker_value (Some (Marker (v :: rest) kw)) w0
            = (Ok h0, w0') ->
            h0 = length (w_hubs w0) /\
            length (w_hubs w0') = S (length (w_hubs w0))).
  { intros w0 w0' h0. unfold _resolve_hub_marker_value, Hub. intros H.
    repeat (case_match; simplify_eq/=);
      (split; [done |]); rewrite length_app; simpl; lia. }
  apply Hnew in H1 as [-> Hl]. apply Hnew in H2 as [-> _].
  split; [by apply lookup_ge_None_2 |]. split; [lia |].
  intros [o Ho] Heq. apply lookup_lt_Some in Ho. lia.
Qed.

Lemma last_filter_snoc {A} (P : A -> Prop) `{!forall x, Decision (P x)}
    (l : list A) (x : A) :
  P x -> last (filter P (l ++ [x])) = Some x.
Proof.
  intros Hx. rewrite filter_app, filter_cons_True, filter_nil by done.
  apply last_snoc.
Qed.

Lemma Client_integration (sdk : sdk_constructor) (env : environ)
    (args : list pyval) (kwargs : dict) (c : pyval) :
  Client sdk env args kwargs = Ok c ->
  client_integration c = Some (PytestIntegration env VNone).
Proof.
  intros H. apply Client_ok in H as (options & H & _ & ->).
  unfold Client_kwargs in H.
  rewrite (dict_setdefault_fst "_experiments") in H.
  apply rbind_ok in H as (kw1 & H1 & H).
  rewrite (dict_setdefault_fst "integrations") in H.
  destruct (dict_setdefault "integrations" _ _).1; try discriminate.
  injection H as <-. simpl. rewrite dict_get_set_eq.
  by apply last_filter_snoc.
Qed.

(** X14. An item marked with [None] has no integration, so its hooks are
    skipped.  An item marked with a string or with a dict has one when
    [Client] can be built from it, the SDK's constructor included, and its
    [always_report] is then the one read from the environment, whatever
    integrations the dict lists, since [Client] appends its own last; when
    [Client] cannot be built the item has no hub at all. *)
Theorem marker_toggle (it : item) (v : pyval) (rest : list pyval) (kw : dict)
    (w : world) :
  sentry_client_marker it = Some (Marker (v :: rest) kw) ->
  (v = VNone -> item_toggle it w = None) /\
  (forall s, v = VStr s ->
     item_toggle it w
     = match Client (w_sdk w) (w_env w) [VStr s] [] with
       | Ok _ => Some (environ_policy (w_env w))
       | Raise _ => None
       end) /\
  (forall d, v = VDict d ->
     item_toggle it w
     = match Client (w_sdk w) (w_env w) [] d with
       | Ok _ => Some (environ_policy (w_env w))
       | Raise _ => None
       end).
Proof.
  intros Hm. unfold item_toggle. rewrite Hm. split_and!.
  - intros ->. simpl. by rewrite get_integration_alloc.
  - intros s ->. unfold _resolve_hub_marker_value. cbn [m_args].
    destruct (Client (w_sdk w) (w_env w) [VStr s] []) as [c | e] eqn:Hc;
      [| done].
    unfold Hub. rewrite get_integration_alloc by done.
    by rewrite (Client_integration _ _ _ _ _ Hc).
  - intros d ->. unfold _resolve_hub_marker_value. cbn [m_args].
    destruct (Client (w_sdk w) (w_env w) [] d) as [c | e] eqn:Hc; [| done].
    unfold Hub. rewrite get_integration_alloc by done.
    by rewrite (Client_integration _ _ _ _ _ Hc).
Qed.


Lemma dict_setdefault_value (k : string) (v : pyval) (d : dict) :
  (dict_setdefault k v d).1 = default v (dict_get k d).
Proof. unfold dict_setdefault. by destruct (dict_get k d). Qed.

Lemma dict_setdefault_get (k : string) (v : pyval) (d : dict) :
  dict_get k (dict_setdefault k v d).2 = Some (default v (dict_get k d)).
Proof.
  unfold dict_setdefault. destruct (dict_get k d) eqn:H; simpl; [done |].
  apply dict_get_set_eq.
Qed.

Lemma dict_setdefault_other (k k' : string) (v : pyval) (d : dict) :
  k' <> k -> dict_get k' (dict_setdefault k v d).2 = dict_get k' d.
Proof.
  intros Hne. unfold dict_setdefault. destruct (dict_get k d); simpl;
    [done | by apply dict_get_set_ne].
Qed.

Ltac dict_lookup :=
  repeat first
    [ rewrite dict_setdefault_get
    | rewrite dict_get_set_eq
    | rewrite dict_setdefault_other by discriminate
    | rewrite dict_get_set_ne by discriminate ].

(** X9. What [Client] hands to [sentry_sdk.Client.__init__]: for [dsn],
    [traces_sample_rate] and [environment] the value given, else the
    variable PYTEST_SENTRY_DSN (or [None]), 1.0 and "test"; the given
    integrations followed by a [PytestIntegration()]; and the given
    [_experiments] with [auto_enabling_integrations] added as [True]
    unless it is there. *)
Theorem Client_defaults (sdk : sdk_constructor) (env : environ)
    (args args' : list pyval) (kwargs options : dict) :
  Client sdk env args kwargs = Ok (VClient args' options) ->
  dict_get "dsn" options
  = Some (default (environ_get env "PYTEST_SENTRY_DSN")
            (dict_get "dsn" kwargs)) /\
  dict_get "traces_sample_rate" options
  = Some (default (VFloat 1) (dict_get "traces_sample_rate" kwargs)) /\
  dict_get "environment" options
  = Some (default (VStr "test") (dict_get "environment" kwargs)) /\
  (exists l,
     default (VList []) (dict_get "integrations" kwargs) = VList l /\
     dict_get "integrations" options
     = Some (VList (l ++ [PytestIntegration env VNone]))) /\
  (exists e e',
     default (VDict []) (dict_get "_experiments" kwargs) = VDict e /\
     dict_get "_experiments" options = Some (VDict e') /\
     dict_get "auto_enabling_integrations" e'
     = Some (default (VBool true)
               (dict_get "auto_enabling_integrations" e)) /\
     forall k, k <> "auto_enabling_integrations" ->
               dict_get k e' = dict_get k e).
Proof.
  intros H. apply Client_ok in H as (options' & H & _ & [= -> ->]).
  unfold Client_kwargs in H.
  rewrite (dict_setdefault_fst "_experiments") in H.
  apply rbind_ok in H as (kw1 & H1 & H2).
  rewrite (dict_setdefault_fst "integrations") in H2.
  rewrite dict_setdefault_value in H1, H2.
  destruct (default (VList []) _) as [| | | | |l| | | | | | | |] eqn:Hl in H2;
    try discriminate.
  injection H2 as <-.
  destruct (default (VDict []) _) as [| | | | | |e| | | | | | |] eqn:He in H1;
    try discriminate.
  injection H1 as <-.
  revert Hl He. dict_lookup. intros Hl He.
  split; [done |]. split; [done |]. split; [done |]. split.
  - exists l. split; [| done]. revert Hl. by dict_lookup.
  - exists e, (dict_setdefault "auto_enabling_integrations" (VBool true) e).2.
    split_and!; try done.
    + apply dict_setdefault_get.
    + intros k Hk. by apply dict_setdefault_other.
Qed.

Lemma Client_kwargs_cases (env : environ) (kwargs : dict) :
  match default (VDict []) (dict_get "_experiments" kwargs) with
  | VDict _ =>
      match default (VList []) (dict_get "integrations" kwargs) with
      | VList _ => exists options, Client_kwargs env kwargs = Ok options
      | v => Client_kwargs env kwargs = Raise (attribute_error v "append")
      end
  | v => Client_kwargs env kwargs = Raise (attribute_error v "setdefault")
  end.
Proof.
  unfold Client_kwargs.
  rewrite (dict_setdefault_fst "_experiments"), dict_setdefault_value.
  dict_lookup.
  destruct (default (VDict []) (dict_get "_experiments" kwargs)); try done.
  simpl.
  rewrite (dict_setdefault_fst "integrations"), dict_setdefault_value.
  dict_lookup.
  destruct (default (VList []) (dict_get "integrations" kwargs)); try done.
  by eexists.
Qed.

(** X10. [Client] raises an [AttributeError], whatever the SDK's
    constructor would do, when [_experiments] is given as a built-in value
    without [setdefault], or, [_experiments] being absent or a dict, when
    [integrations] is given as a built-in value without [append].  When
    [_experiments] is absent or a dict and [integrations] absent or a list,
    the outcome is that of the SDK's constructor on the completed
    arguments: its exception, or the client. *)
Theorem Client_failure (sdk : sdk_constructor) (env : environ)
    (args : list pyval) (kwargs : dict) :
  (forall v, dict_get "_experiments" kwargs = Some v ->
     lacks_setdefault v = true ->
     exists e, Client sdk env args kwargs = Raise e /\
               exc_type e = "AttributeError") /\
  (forall v, experiments_ok kwargs = true ->
     dict_get "integrations" kwargs = Some v ->
     lacks_append v = true ->
     exists e, Client sdk env args kwargs = Raise e /\
               exc_type e = "AttributeError") /\
  (client_kwargs_ok kwargs = true ->
   exists options,
     Client_kwargs env kwargs = Ok options /\
     Client sdk env args kwargs
     = match sdk args options with
       | Some e => Raise e
       | None => Ok (VClient args options)
       end).
Proof.
  pose proof (Client_kwargs_cases env kwargs) as H.
  unfold client_kwargs_ok, experiments_ok, integrations_ok, Client.
  split_and!.
  - intros v Hv Hl. rewrite Hv in H. simpl in H.
    destruct v; try done; rewrite H; by eexists.
  - intros v Hx Hv Hl. rewrite Hv in H.
    destruct (dict_get "_experiments" kwargs) as [[]|]; try done; simpl in H;
      (destruct v; try done; rewrite H; by eexists).
  - intros Hok. apply andb_true_iff in Hok as [Hx Hi].
    destruct (dict_get "_experiments" kwargs) as [[]|]; try done;
      (destruct (dict_get "integrations" kwargs) as [[]|]; try done);
      simpl in H; destruct H as [options H]; exists options; by rewrite H.
Qed.


(** X8. An event with a stack frame whose module name is missing or is
    not a string makes the event processor raise: it returns nothing for
    that event. *)
Theorem frame_without_module_raises (ev : dict) (hint f : pyval) :
  f ∈ event_frames ev -> wf_frame f = false ->
  exists e, _process_event ev hint = Raise e.
Proof.
  intros Hin Hwf.
  destruct (_process_event ev hint) as [r | e] eqn:H; [| by eexists].
  exfalso. apply process_event_marks in H as (ev' & _ & _ & HF).
  apply list_elem_of_lookup in Hin as [n Hn].
  destruct (Forall2_lookup_l _ _ _ _ _ HF Hn)
    as (f' & _ & (d & d' & -> & -> & Hag) & Hm).
  destruct Hm as (d0 & m & b & [= <-] & Hmod & _).
  simpl in Hwf. rewrite <- (Hag "module") in Hwf by discriminate.
  by rewrite Hmod in Hwf.
Qed.

Lemma dict_set_set (k : string) (v v' : pyval) (d : dict) :
  dict_set k v (dict_set k v' d) = dict_set k v d.
Proof.
  induction d as [|[k0 v0] d IH]; simpl.
  - by rewrite String.eqb_refl.
  - destruct (String.eqb k k0) eqn:E; simpl; rewrite E; [done |].
    by rewrite IH.
Qed.

Lemma rmap_fixed {A} (f : A -> result A) (xs ys : list A) :
  (forall x y, f x = Ok y -> f y = Ok y) ->
  rmap f xs = Ok ys -> rmap f ys = Ok ys.
Proof.
  intros Hf. revert ys. induction xs as [|x xs IH]; intros ys; simpl.
  - by intros [= <-].
  - intros H. apply rbind_ok in H as (y & Hy & H).
    apply rbind_ok in H as (ys' & Hys & H). injection H as <-.
    simpl. rewrite (Hf _ _ Hy). simpl. by rewrite (IH _ Hys).
Qed.

(** Going through a container a second time, once its elements are the
    ones a first pass left. *)
Lemma elements_fixed (f : pyval -> result pyval) (v : pyval)
    (vs vs' : list pyval) :
  (forall x y, f x = Ok y -> f y = Ok y) ->
  iterate v = Ok vs -> rmap f vs = Ok vs' ->
  exists ws, iterate (iterated v vs') = Ok ws /\ rmap f ws = Ok vs' /\
             iterated (iterated v vs') vs' = iterated v vs'.
Proof.
  intros Hf Hv Hvs.
  destruct v; simpl in *; try discriminate; injection Hv as <-.
  - eauto.
  - exists vs'. split; [done |]. split; [| done]. by eapply rmap_fixed.
  - eauto.
Qed.

Lemma process_frame_fixed (f f' : pyval) :
  process_frame f = Ok f' -> process_frame f' = Ok f'.
Proof.
  unfold process_frame. intros H. apply rbind_ok in H as (m & Hm & H).
  destruct f as [| | | | | |d| | | | | | |]; try discriminate.
  simpl in Hm. destruct (dict_get "module" d) as [x|] eqn:Hd; [| done].
  injection Hm as ->. destruct m; try discriminate.
  unfold setitem in H. injection H as <-. simpl.
  rewrite dict_get_set_ne, Hd by discriminate. simpl.
  by rewrite dict_set_set.
Qed.

Lemma process_stacktrace_fixed (st st' : pyval) :
  _process_stacktrace st = Ok st' -> _process_stacktrace st' = Ok st'.
Proof.
  unfold _process_stacktrace. intros H.
  apply rbind_ok in H as (fr & Hfr & H).
  apply rbind_ok in H as (fs & Hfs & H).
  apply rbind_ok in H as (fs' & Hfs' & H).
  destruct st as [| | | | | |d| | | | | | |]; try discriminate.
  simpl in Hfr. destruct (dict_get "frames" d) as [x|] eqn:Hd; [| done].
  injection Hfr as ->. simpl in H. injection H as <-.
  destruct (elements_fixed process_frame fr fs fs' process_frame_fixed
              Hfs Hfs') as (ws & Hws & Hrm & Hit).
  simpl. rewrite dict_get_set_eq. simpl. rewrite Hws. simpl.
  rewrite Hrm. simpl. by rewrite Hit, dict_set_set.
Qed.

Lemma process_exception_fixed (e e' : pyval) :
  process_exception e = Ok e' -> process_exception e' = Ok e'.
Proof.
  unfold process_exception. intros H.
  apply rbind_ok in H as (has & Hhas & H). destruct has.
  - apply rbind_ok in H as (st & Hst & H).
    apply rbind_ok in H as (st' & Hst' & H).
    destruct e as [| | | | | |d| | | | | | |]; try discriminate.
    simpl in Hst. destruct (dict_get "stacktrace" d) as [x|] eqn:Hd; [| done].
    injection Hst as ->. simpl in H. injection H as <-.
    simpl. unfold dict_has. rewrite !dict_get_set_eq. simpl.
    rewrite ?dict_get_set_eq. simpl.
    rewrite (process_stacktrace_fixed _ _ Hst'). simpl.
    by rewrite dict_set_set.
  - injection H as <-. by rewrite Hhas.
Qed.

(** X7. The event processor is idempotent: applied to an event it has
    returned, it returns that event again. *)
Theorem process_event_idempotent (ev ev' : dict) (hint hint' : pyval) :
  _process_event ev hint = Ok (VDict ev') ->
  _process_event ev' hint' = Ok (VDict ev').
Proof.
  unfold _process_event. intros H.
  apply rbind_ok in H as (ev1 & H1 & H).
  apply rbind_ok in H as (ev2 & H2 & H). injection H as <-.
  (* the first stage leaves [ev1] such that a second pass leaves it *)
  assert (Hx : dict_get "stacktrace" ev1 = dict_get "stacktrace" ev /\
    forall ev3 : dict,
      dict_get "exception" ev3 = dict_get "exception" ev1 ->
      (if dict_has "exception" ev3 then
         exc ← getitem (VDict ev3) "exception";
         values ← getitem exc "values";
         vs ← iterate values;
         vs' ← rmap process_exception vs;
         exc' ← setitem exc "values" (iterated values vs');
         Ok (dict_set "exception" exc' ev3)
       else Ok ev3) = Ok ev3).
  { unfold dict_has in H1.
    destruct (dict_get "exception" ev) as [exc|] eqn:Hexc.
    - apply rbind_ok in H1 as (exc0 & He & H1). simpl in He.
      rewrite Hexc in He. injection He as <-.
      apply rbind_ok in H1 as (values & Hv & H1).
      apply rbind_ok in H1 as (vs & Hvs & H1).
      apply rbind_ok in H1 as (vs' & Hvs' & H1).
      apply rbind_ok in H1 as (exc' & Hexc' & H1). injection H1 as <-.
      destruct exc as [| | | | | |x| | | | | | |]; try discriminate.
      simpl in Hv. destruct (dict_get "values" x) as [v0|] eqn:Hx; [| done].
      injection Hv as ->. simpl in Hexc'. injection Hexc' as <-.
      split; [by apply dict_get_set_ne |].
      intros ev3 H3. rewrite dict_get_set_eq in H3.
      unfold dict_has. rewrite H3. simpl. rewrite H3. simpl.
      rewrite dict_get_set_eq. simpl.
      destruct (elements_fixed process_exception values vs vs'
                  process_exception_fixed Hvs Hvs') as (ws & Hws & Hrm & Hit).
      rewrite Hws. simpl. rewrite Hrm. simpl.
      rewrite Hit, dict_set_set. by rewrite dict_set_same.
    - injection H1 as <-. split; [done |]. intros ev3 H3.
      unfold dict_has. by rewrite H3, Hexc. }
  destruct Hx as [Hst Hfix1].
  unfold dict_has in H2. rewrite Hst in H2.
  destruct (dict_get "stacktrace" ev) as [st|] eqn:Hst0.
  - apply rbind_ok in H2 as (st0 & Hs & H2). simpl in Hs.
    rewrite Hst in Hs. injection Hs as <-.
    apply rbind_ok in H2 as (st' & Hst' & H2). injection H2 as <-.
    rewrite Hfix1 by by apply dict_get_set_ne. simpl.
    unfold dict_has. rewrite !dict_get_set_eq. simpl.
    rewrite ?dict_get_set_eq. simpl.
    rewrite (process_stacktrace_fixed _ _ Hst'). simpl.
    by rewrite dict_set_set.
  - injection H2 as <-. rewrite Hfix1 by done. simpl.
    unfold dict_has. by rewrite Hst.
Qed.

Lemma calls_directly_recorded (c : sdk_call) (p : phase) (w : world) :
  calls_directly c p w -> Called (w_current w) c ∈ w_trace (run p w).2.
Proof.
  induction 1 as [k w | c' k w _ IH | h inner k w _ IH]; simpl.
  - destruct (run k (emit c w)) as [o w'] eqn:Hr.
    apply run_grows in Hr as (_ & _ & [ext Ht] & _). simpl in *.
    rewrite Ht. set_solver.
  - exact IH.
  - destruct (multicall (registered h) WStart (run inner) w)
      as [o1 w1] eqn:Hm. simpl in IH.
    apply registered_restored in Hm as [<- _]; [exact IH |].
    intros ? ? ?. apply run_restored.
Qed.

(** X4. An SDK call that the test or the engine makes during a phase
    wrapped by an enabled hook, also after hook calls nested in the phase
    have returned, is recorded on the hub of the item. *)
Theorem test_calls_on_item_hub (h : hookcall) (c : sdk_call) (p : phase)
    (w w1 : world) (hub : nat) (i : pyval) :
  is_makereport h = false ->
  _resolve_hub_marker_value (sentry_client_marker (hook_item h)) w
  = (Ok hub, w1) ->
  get_integration w1 hub = Some i ->
  calls_directly c p (phase_world h hub w1) ->
  Called hub c ∈ w_trace (multicall (registered h) WStart (run p) w).2.
Proof.
  intros Hm Hres Hint Hc.
  destruct (enabled_hook_run h p w w1 hub i Hm Hres Hint)
    as (Hcur & _ & _ & -> & _).
  apply calls_directly_recorded in Hc. rewrite Hcur in Hc. set_solver.
Qed.

Lemma dict_set_keys (k : string) (v : pyval) (d : dict) :
  map fst (dict_set k v d)
  = if dict_has k d then map fst d else map fst d ++ [k].
Proof.
  unfold dict_has. induction d as [|[k0 v0] d IH]; simpl; [done |].
  destruct (String.eqb k k0) eqn:E; simpl; [done |].
  rewrite IH. by destruct (dict_get k d).
Qed.

Lemma dict_set_keys_present (k : string) (v x : pyval) (d : dict) :
  dict_get k d = Some x -> map fst (dict_set k v d) = map fst d.
Proof. intros H. rewrite dict_set_keys. unfold dict_has. by rewrite H. Qed.

(** X16. The event processor adds no key to the event, removes none and
    keeps their order; a frame keeps its keys in order and gets [in_app]
    as a new last key when it had none. *)
Theorem keys_kept (ev : dict) (hint : pyval) :
  (forall ev', _process_event ev hint = Ok (VDict ev') ->
               map fst ev' = map fst ev) /\
  (forall d d', process_frame (VDict d) = Ok (VDict d') ->
     map fst d' = if dict_has "in_app" d then map fst d
                  else map fst d ++ ["in_app"]).
Proof.
  split.
  - unfold _process_event. intros ev' H.
    apply rbind_ok in H as (ev1 & H1 & H).
    apply rbind_ok in H as (ev2 & H2 & H). injection H as <-.
    assert (K1 : map fst ev1 = map fst ev).
    { unfold dict_has in H1.
      destruct (dict_get "exception" ev) as [exc|] eqn:Hexc;
        [| by injection H1 as <-].
      apply rbind_ok in H1 as (? & _ & H1).
      apply rbind_ok in H1 as (? & _ & H1).
      apply rbind_ok in H1 as (? & _ & H1).
      apply rbind_ok in H1 as (? & _ & H1).
      apply rbind_ok in H1 as (? & _ & H1). injection H1 as <-.
      by eapply dict_set_keys_present. }
    rewrite <- K1. unfold dict_has in H2.
    destruct (dict_get "stacktrace" ev1) as [st|] eqn:Hst;
      [| by injection H2 as <-].
    apply rbind_ok in H2 as (? & _ & H2).
    apply rbind_ok in H2 as (? & _ & H2). injection H2 as <-.
    by eapply dict_set_keys_present.
  - unfold process_frame. intros d d' H.
    apply rbind_ok in H as (m & _ & H). destruct m; try discriminate.
    simpl in H. injection H as <-. apply dict_set_keys.
Qed.

(** X1. Resolving a marker records no SDK call and changes neither the
    current hub, nor a chain, nor the environment; it invokes at most one
    callable and creates at most one hub, which is then the hub it
    returns, every existing hub object staying as it is. *)
Theorem resolver_effects (m : option marker) (w : world) :
  w_trace (_resolve_hub_marker_value m w).2 = w_trace w /\
  w_current (_resolve_hub_marker_value m w).2 = w_current w /\
  w_exc_chain (_resolve_hub_marker_value m w).2 = w_exc_chain w /\
  w_env (_resolve_hub_marker_value m w).2 = w_env w /\
  (w_invoked (_resolve_hub_marker_value m w).2 = w_invoked w \/
   exists name,
     w_invoked (_resolve_hub_marker_value m w).2 = w_invoked w ++ [name]) /\
  (w_hubs (_resolve_hub_marker_value m w).2 = w_hubs w \/
   exists client,
     (_resolve_hub_marker_value m w).1 = Ok (length (w_hubs w)) /\
     w_hubs (_resolve_hub_marker_value m w).2
     = w_hubs w ++ [HubObj client []]).
Proof. exact (resolve_frame m w). Qed.

(** X3. A call of the protocol, call or fixture hook for an item whose hub
    carries the integration runs the wrapped phase with that hub current,
    after the hub was entered, left and entered again and the body made
    its opening calls on it; the outcome of the call is the outcome of the
    phase, a raise included; and after the phase the body makes its
    closing call on the hub, which is then left.  The hook itself does not
    touch the chains. *)
Theorem hook_brackets_phase (h : hookcall) (p : phase) (w w1 : world)
    (hub : nat) (i : pyval) :
  is_makereport h = false ->
  _resolve_hub_marker_value (sentry_client_marker (hook_item h)) w
  = (Ok hub, w1) ->
  get_integration w1 hub = Some i ->
  w_current (phase_world h hub w1) = hub /\
  w_trace (phase_world h hub w1)
  = w_trace w ++ [Entered hub; Exited hub; Entered hub]
      ++ map (Called hub) (opening h) /\
  (multicall (registered h) WStart (run p) w).1
  = (run p (phase_world h hub w1)).1 /\
  w_trace (multicall (registered h) WStart (run p) w).2
  = w_trace (run p (phase_world h hub w1)).2
      ++ map (Called hub) (closing h) ++ [Exited hub] /\
  w_exc_chain (multicall (registered h) WStart (run p) w).2
  = w_exc_chain (run p (phase_world h hub w1)).2.
Proof. apply enabled_hook_run. Qed.

(** X6. Whatever phases run, the chain of an item is never shortened or
    rewritten: the chain before is a prefix of the chain after. *)
Theorem chain_never_shortened (p : phase) (w : world) (it : item) :
  exc_chain_of it w `prefix_of` exc_chain_of it (run p w).2.
Proof.
  destruct (run p w) as [o w'] eqn:H.
  apply run_grows in H as (_ & _ & _ & _ & H). apply (H (item_id it)).
Qed.

Lemma resolution_failure_aborts_witness :
  multicall (registered (RuntestCall bare_marker_item)) WStart
    (run (Return VNone)) (initial_world ∅)
  = (Raise index_error, initial_world ∅).
Proof.
  destruct (resolution_failure_aborts (RuntestCall bare_marker_item)
              (run (Return VNone)) (initial_world ∅) (initial_world ∅)
              index_error) as [H _]; [reflexivity | exact H].
Defined.

Lemma hook_brackets_phase_witness :
  (multicall (registered (RuntestCall sample_item)) WStart
     (run (Fail sample_failure)) (initial_world ∅)).1
  = Raise sample_failure.
Proof.
  destruct (hook_brackets_phase (RuntestCall sample_item)
              (Fail sample_failure) (initial_world ∅) (initial_world ∅)
              DEFAULT_HUB (VIntegration (VBool false)))
    as (_ & _ & H & _); [reflexivity | reflexivity | reflexivity |].
  exact H.
Defined.

Lemma test_calls_on_item_hub_witness :
  Called DEFAULT_HUB (SetTag "suite" "nightly")
  ∈ w_trace (multicall (registered (RuntestCall sample_item)) WStart
               (run (Sdk (SetTag "suite" "nightly") (Return VNone)))
               (initial_world ∅)).2.
Proof.
  apply (test_calls_on_item_hub (RuntestCall sample_item)
           (SetTag "suite" "nightly")
           (Sdk (SetTag "suite" "nightly") (Return VNone))
           (initial_world ∅) (initial_world ∅) DEFAULT_HUB
           (VIntegration (VBool false)));
    [reflexivity | reflexivity | reflexivity | constructor].
Defined.

Lemma process_event_idempotent_witness :
  _process_event (sample_event [VBool false; VBool true]) VNone
  = Ok (VDict (sample_event [VBool false; VBool true])).
Proof.
  apply (process_event_idempotent (sample_event []) _ VNone VNone).
  reflexivity.
Defined.

Lemma frame_without_module_raises_witness :
  exists e, _process_event headless_event VNone = Raise e.
Proof.
  apply (frame_without_module_raises headless_event VNone headless_frame);
    [constructor | reflexivity].
Defined.

Lemma Client_defaults_witness :
  dict_get "environment"
    [("environment", VStr "ci"); ("dsn", VNone);
     ("traces_sample_rate", VFloat 1);
     ("_experiments", VDict [("auto_enabling_integrations", VBool true)]);
     ("integrations", VList [VIntegration (VBool false)])]
  = Some (VStr "ci").
Proof.
  destruct (Client_defaults accepting_sdk ∅ [] []
              [("environment", VStr "ci")]
              [("environment", VStr "ci"); ("dsn", VNone);
               ("traces_sample_rate", VFloat 1);
               ("_experiments",
                VDict [("auto_enabling_integrations", VBool true)]);
               ("integrations", VList [VIntegration (VBool false)])])
    as (_ & _ & H & _); [reflexivity | exact H].
Defined.

Lemma Client_failure_witness :
  (exists e, Client strict_sdk ∅ [] [("_experiments", VInt 1)] = Raise e /\
             exc_type e = "AttributeError") /\
  (exists e, Client strict_sdk ∅ [] [("integrations", VNone)] = Raise e /\
             exc_type e = "AttributeError") /\
  (exists options,
     Client_kwargs ∅ [] = Ok options /\
     Client strict_sdk ∅ [VStr "not-a-dsn"] []
     = match strict_sdk [VStr "not-a-dsn"] options with
       | Some e => Raise e
       | None => Ok (VClient [VStr "not-a-dsn"] options)
       end).
Proof.
  split_and!.
  - apply (proj1 (Client_failure strict_sdk ∅ []
                    [("_experiments", VInt 1)]) (VInt 1)); reflexivity.
  - apply (proj1 (proj2 (Client_failure strict_sdk ∅ []
                           [("integrations", VNone)])) VNone); reflexivity.
  - apply (proj2 (proj2 (Client_failure strict_sdk ∅ [VStr "not-a-dsn"] []))).
    reflexivity.
Defined.

Lemma firing_submits_on_item_hub_witness :
  exists subs,
    (subs = [] \/
     subs = exc_chain_of sample_item
              (firing sample_item (CallInfo "call" None) (VReport "passed")
                 (initial_world ∅)).2) /\
    w_trace (firing sample_item (CallInfo "call" None) (VReport "passed")
               (initial_world ∅)).2
    = w_trace (initial_world ∅)
        ++ [Entered DEFAULT_HUB; Exited DEFAULT_HUB; Entered DEFAULT_HUB;
            Called DEFAULT_HUB (SetTag "pytest.result" "pending");
            Called DEFAULT_HUB (SetTag "pytest.result" "passed")]
        ++ submissions DEFAULT_HUB subs ++ [Exited DEFAULT_HUB].
Proof.
  apply (firing_submits_on_item_hub sample_item (CallInfo "call" None)
           "passed" (initial_world ∅) (initial_world ∅) DEFAULT_HUB
           (VBool false)); reflexivity.
Defined.

Lemma failed_report_records_nothing_witness :
  exists w',
    multicall (registered (RuntestMakereport sample_item
                             (CallInfo "call" (Some sample_failure))))
      WStart (run (Fail sample_failure)) (initial_world ∅)
    = (Raise sample_failure, w') /\
    w_exc_chain w' = w_exc_chain (initial_world ∅) /\
    w_current w' = w_current (initial_world ∅) /\
    w_trace w'
    = w_trace (initial_world ∅)
        ++ [Entered DEFAULT_HUB; Exited DEFAULT_HUB; Entered DEFAULT_HUB;
            Called DEFAULT_HUB (SetTag "pytest.result" "pending");
            Exited DEFAULT_HUB].
Proof.
  apply (failed_report_records_nothing sample_item
           (CallInfo "call" (Some sample_failure)) (Raise sample_failure)
           sample_failure (initial_world ∅) (initial_world ∅) DEFAULT_HUB
           (VIntegration (VBool false))); reflexivity.
Defined.

Lemma fixture_hub_is_new_witness :
  w_hubs (initial_world ∅) !! 2%nat = None /\ 3%nat <> 2%nat /\
  (is_Some (w_hubs (initial_world ∅) !! w_current (initial_world ∅)) ->
   2%nat <> w_current (initial_world ∅)).
Proof.
  apply (fixture_hub_is_new dsn_item
           (VStr "https://key@example.invalid/1") [] [] (initial_world ∅)
           (sentry_test_hub dsn_item (initial_world ∅)).2
           (sentry_test_hub dsn_item
              (sentry_test_hub dsn_item (initial_world ∅)).2).2);
    reflexivity.
Defined.

Lemma marker_toggle_witness :
  item_toggle dsn_item (initial_world ∅) = Some (environ_policy ∅) /\
  item_toggle rejected_item strict_world = None.
Proof.
  split.
  - destruct (marker_toggle dsn_item (VStr "https://key@example.invalid/1")
                [] [] (initial_world ∅) eq_refl) as (_ & H & _).
    exact (H _ eq_refl).
  - destruct (marker_toggle rejected_item (VStr "not-a-dsn") [] []
                strict_world eq_refl) as (_ & H & _).
    exact (H _ eq_refl).
Defined.


Lemma keys_kept_witness :
  map fst (sample_event [VBool false; VBool true])
  = map fst (sample_event []).
Proof.
  destruct (keys_kept (sample_event []) VNone) as [H _].
  apply H. reflexivity.
Defined.
